(** * decorators.py: a shallow embedding of the function wrappers

    The module [decorators.py] is a collection of Python decorators.  Each
    decorator builds a closure [wrapper] (or [wrap_func]) around a target
    function; some closures own a mutable cell ([nonlocal] variables, or the
    attributes of a [Timing] object).

    The embedding is a state-and-exception monad.  A target function is a
    Python function object: its body transforms the [world] (clock, files,
    the two output streams, the globals of the caller's module) and either
    returns a value or raises.  The wrapper's own cell and the log of target
    invocations are kept apart from the world, as a target cannot name
    them. *)

From Stdlib Require Import ZArith List Ascii Lia PrimFloat Uint63.
From stdpp Require Import base option list strings gmap pretty.

Local Open Scope Z_scope.
Local Open Scope string_scope.
Local Open Scope list_scope.

(** ** Exception classes *)

(** The built-in exception classes the module raises or catches, the ones
    that sit beside [Exception] under [BaseException], and classes that a
    caller defines with a single base. *)
Inductive pyclass : Type :=
  | BaseException
  | SystemExit
  | KeyboardInterrupt
  | GeneratorExit
  | Exception
  | AssertionError
  | AttributeError
  | NameError
  | UnboundLocalError
  | OSError
  | FileNotFoundError
  | RuntimeError
  | TypeError
  | ValueError
  | Warning
  | DeprecationWarning
  | UserClass (name : string) (base : pyclass).

#[global] Instance pyclass_eq_dec : EqDecision pyclass.
Proof. solve_decision. Defined.

(** Method resolution order: the class followed by its ancestors. *)
Fixpoint mro (c : pyclass) : list pyclass :=
  c :: match c with
       | BaseException => []
       | SystemExit | KeyboardInterrupt | GeneratorExit | Exception =>
           [BaseException]
       | UnboundLocalError => [NameError; Exception; BaseException]
       | FileNotFoundError => [OSError; Exception; BaseException]
       | DeprecationWarning => [Warning; Exception; BaseException]
       | UserClass _ base => mro base
       | _ => [Exception; BaseException]
       end.

Definition issubclass (c d : pyclass) : bool := bool_decide (d ∈ mro c).

(** An exception instance: its class, its message and the lines that
    [traceback.print_tb] would print for it. *)
Record exn : Type := Exn {
  exn_class : pyclass;
  exn_msg : string;
  exn_tb : list string
}.

Definition isinstance (e : exn) (c : pyclass) : bool :=
  issubclass (exn_class e) c.

(** What follows [except]: one class or a tuple of classes. *)
Inductive except_spec : Type :=
  | ExceptClass (c : pyclass)
  | ExceptTuple (cs : list pyclass).

Definition exc_matches (spec : except_spec) (e : exn) : bool :=
  match spec with
  | ExceptClass c => isinstance e c
  | ExceptTuple cs => existsb (isinstance e) cs
  end.

(** ** Values, arguments, the world *)

Definition frame : Type := list (list string).

(** Python values: the ones targets return here, data frames as their rows,
    and module and function objects as their names. *)
Inductive value : Type :=
  | VNone
  | VBool (b : bool)
  | VInt (z : Z)
  | VFloat (f : float)
  | VStr (s : string)
  | VFrame (d : frame)
  | VModule (name : string)
  | VFunction (name : string).

Record args : Type := Args {
  a_pos : list value;
  a_kw : list (string * value)
}.

Record file : Type := File {
  f_text : string;
  f_mtime : float
}.

Record world : Type := World {
  w_time : float;
  w_files : gmap string file;
  w_stdout : list string;
  w_stderr : list string;
  w_globals : gmap string value
}.

Inductive outcome (A : Type) : Type :=
  | Returns (a : A)
  | Raises (e : exn).
Arguments Returns {A} a.
Arguments Raises {A} e.

(** A Python function object, with the attributes [_repr_func] reads. *)
Record pyfunction : Type := PyFunction {
  fn_name : string;
  co_filename : string;
  co_firstlineno : Z;
  fn_body : args -> world -> outcome value * world
}.

(** Library functions the module calls but does not define: the [.5f]
    float formatting, the local calendar day of a POSIX timestamp
    ([datetime.fromtimestamp(t).date()], as a day number), and the csv
    writer and reader of pandas. *)
Class PyRuntime : Type := {
  format_5f : float -> string;
  local_date : float -> Z;
  csv_dump : frame -> string;
  csv_load : string -> outcome value
}.

(** ** The monad *)

(** [m_cell] is the closure's mutable state, [m_calls] logs the arguments of
    every invocation of the target, most recent first. *)
Record machine (S : Type) : Type := Machine {
  m_cell : S;
  m_calls : list args;
  m_world : world
}.
Arguments Machine {S} m_cell m_calls m_world.
Arguments m_cell {S} m.
Arguments m_calls {S} m.
Arguments m_world {S} m.

Definition M (S A : Type) : Type := machine S -> outcome A * machine S.

Section Monad.
Context {S : Type}.

Definition ret {A} (a : A) : M S A := fun m => (Returns a, m).

Definition raise {A} (e : exn) : M S A := fun m => (Raises e, m).

Definition bind {A B} (c : M S A) (k : A -> M S B) : M S B :=
  fun m => match c m with
           | (Returns a, m') => k a m'
           | (Raises e, m') => (Raises e, m')
           end.

(** [try: body  except spec as e: handler e] *)
Definition try_except {A} (body : M S A) (spec : except_spec)
    (handler : exn -> M S A) : M S A :=
  fun m => match body m with
           | (Returns a, m') => (Returns a, m')
           | (Raises e, m') =>
               if exc_matches spec e then handler e m' else (Raises e, m')
           end.

Definition get_cell : M S S := fun m => (Returns (m_cell m), m).

Definition set_cell (s : S) : M S unit :=
  fun m => (Returns tt, Machine s (m_calls m) (m_world m)).

Definition get_world : M S world := fun m => (Returns (m_world m), m).

Definition set_world (w : world) : M S unit :=
  fun m => (Returns tt, Machine (m_cell m) (m_calls m) w).

(** the call [func (args, kwargs)] *)
Definition call (func : pyfunction) (a : args) : M S value :=
  fun m => let (r, w) := fn_body func a (m_world m) in
           (r, Machine (m_cell m) (a :: m_calls m) w).
End Monad.

Declare Scope py_scope.
Delimit Scope py_scope with py.
Notation "x <~ c ;; k" := (bind c (fun x => k))
  (at level 100, c at next level, right associativity) : py_scope.
Notation "c ;;; k" := (bind c (fun _ => k))
  (at level 100, right associativity) : py_scope.
Local Open Scope py_scope.

(** Number of target invocations between two machine states. *)
Definition invocations {S} (before after : machine S) : Z :=
  Z.of_nat (length (m_calls after)) - Z.of_nat (length (m_calls before)).

(** ** Module namespace *)

(** The global namespace that [decorators.py] builds when it is imported,
    in source order.  The file imports [os], [time] and [functools] and
    nothing else. *)
Definition module_globals : gmap string value :=
  list_to_map
    [ ("os", VModule "os"); ("time", VModule "time");
      ("functools", VModule "functools");
      ("_repr_func", VFunction "_repr_func");
      ("chdir_back_and_forth", VFunction "chdir_back_and_forth");
      ("timing", VFunction "timing"); ("Timing", VFunction "Timing");
      ("deprecated", VFunction "deprecated");
      ("pass_except", VFunction "pass_except");
      ("repeat", VFunction "repeat"); ("slow_down", VFunction "slow_down");
      ("retry", VFunction "retry"); ("limit_run", VFunction "limit_run");
      ("timeout", VFunction "timeout"); ("memorize", VFunction "memorize");
      ("reduce_query", VFunction "reduce_query");
      ("override_args", VFunction "override_args");
      ("force_input_arg", VFunction "force_input_arg");
      ("accepts", VFunction "accepts"); ("returns", VFunction "returns");
      ("info", VFunction "info"); ("wip_warning", VFunction "wip_warning");
      ("protected_symbol", VFunction "protected_symbol") ].

Definition type_name (v : value) : string :=
  match v with
  | VNone => "NoneType"
  | VBool _ => "bool"
  | VInt _ => "int"
  | VFloat _ => "float"
  | VStr _ => "str"
  | VFrame _ => "DataFrame"
  | VModule _ => "module"
  | VFunction _ => "function"
  end.

Definition attribute_error (v : value) (attr : string) : exn :=
  Exn AttributeError
    ("'" +:+ type_name v +:+ "' object has no attribute '" +:+ attr +:+ "'")
    [].

Section Namespace.
Context {S : Type}.
Variable G : gmap string value.

(** A free name of a wrapper that no enclosing function binds is looked
    up in the module namespace [G] when the expression is evaluated.
    Built-in names ([print], [range], [ValueError], ...) are always found
    and are not modelled. *)
Definition load_global (name : string) : M S value :=
  match G !! name with
  | Some v => ret v
  | None =>
      raise (Exn NameError ("name '" +:+ name +:+ "' is not defined") [])
  end.

(** [name.attr] where the attribute belongs to the library module
    [modname]. *)
Definition load_module_attr (name modname attr : string) : M S unit :=
  v <~ load_global name ;;
  match v with
  | VModule m =>
      if String.eqb m modname then ret tt
      else raise (attribute_error v attr)
  | _ => raise (attribute_error v attr)
  end.

(** A call of one of the module's own functions through its global
    name.  A namespace that rebinds the name to some other object is
    outside the model and is made to fail. *)
Definition load_function (name : string) : M S unit :=
  v <~ load_global name ;;
  match v with
  | VFunction f =>
      if String.eqb f name then ret tt
      else raise (Exn TypeError "unexpected callable" [])
  | _ =>
      raise (Exn TypeError
               ("'" +:+ type_name v +:+ "' object is not callable") [])
  end.
End Namespace.

(** [_repr_func] *)
Definition _repr_func (func : pyfunction) : string :=
  fn_name func +:+ "() in " +:+ co_filename func +:+ ", line "
    +:+ pretty (co_firstlineno func).

(** ** retry *)

Section Retry.
Variable G : gmap string value.
Variable n : Z.
Variable exception : except_spec.
Variable func : pyfunction.

(** The [for _ in range(n)] loop of [wrapper]: [Some v] when the body
    executed [return v], [None] when the loop ran to its end. *)
Fixpoint retry_loop (a : args) (k : nat) : M unit (option value) :=
  match k with
  | O => ret None
  | Datatypes.S k' =>
      r <~ try_except (v <~ call func a ;; ret (Some v)) exception
             (fun _ => ret None) ;;
      match r with
      | Some v => ret (Some v)
      | None => retry_loop a k'
      end
  end.

Definition retry_error : exn :=
  Exn ValueError
    (_repr_func func +:+ " exceeds " +:+ pretty n +:+ " retries") [].

Definition retry_wrapper (a : args) : M unit value :=
  r <~ retry_loop a (Z.to_nat n) ;;
  match r with
  | Some v => ret v
  | None => load_function G "_repr_func" ;;; raise retry_error
  end.
End Retry.

(** ** pass_except *)

Section PassExcept.
Variable print_exception : bool.
Variable func : pyfunction.

(** [traceback.print_tb] writes the traceback lines to standard error. *)
Definition print_tb (e : exn) : M unit unit :=
  w <~ get_world ;;
  set_world (World (w_time w) (w_files w) (w_stdout w)
               (w_stderr w ++ exn_tb e) (w_globals w)).

(** The handler has no [return]: control falls off the end of [wrapper],
    which yields [None]. *)
Definition pass_except_wrapper (a : args) : M unit value :=
  try_except (call func a) (ExceptClass Exception)
    (fun e =>
       (if print_exception then print_tb e else ret tt) ;;; ret VNone).
End PassExcept.

(** ** limit_run *)

Section LimitRun.
Variable G : gmap string value.
Variable n : option Z.
Variable func : pyfunction.

(** [inner func] runs at decoration time: it binds [times_left = n] and
    returns [wrapper].  The result is the initial cell of the closure. *)
Definition limit_run_inner : outcome (option Z) :=
  let _ := func in Returns n.

Definition limit_run_error (bound_n : Z) : exn :=
  Exn RuntimeError
    (_repr_func func +:+ " exceeds maximum run of " +:+ pretty bound_n
       +:+ " times") [].

Definition limit_run_wrapper (a : args) : M (option Z) value :=
  match n with
  | None => call func a
  | Some bound_n =>
      times_left <~ get_cell ;;
      match times_left with
      | None =>
          raise (Exn TypeError
                   "'>' not supported between instances of 'NoneType' and 'int'"
                   [])
      | Some t =>
          if (0 <? t)%Z then
            set_cell (Some (t - 1)) ;;; call func a
          else
            load_function G "_repr_func" ;;; raise (limit_run_error bound_n)
      end
  end.
End LimitRun.

(** ** String formatting used by the timing report *)

Fixpoint str_repeat (c : ascii) (k : nat) : string :=
  match k with
  | O => EmptyString
  | Datatypes.S k' => String c (str_repeat c k')
  end.

(** Format specs [<30s], [>10...] and [#^54]. *)
Definition ljust (width : nat) (s : string) : string :=
  s +:+ str_repeat " " (width - String.length s)%nat.

Definition rjust (width : nat) (s : string) : string :=
  str_repeat " " (width - String.length s)%nat +:+ s.

Definition center (fill : ascii) (width : nat) (s : string) : string :=
  let pad := (width - String.length s)%nat in
  let left := (pad / 2)%nat in
  str_repeat fill left +:+ s +:+ str_repeat fill (pad - left)%nat.

(** The separator line printed by [split_before] and [split_after]. *)
Definition split_line (time_run : Z) : string :=
  center "#" 54 (" " +:+ pretty time_run +:+ " ").

Definition runtime_line `{PyRuntime} (ti name : string) (scaled : float)
    : string :=
  "Runtime of " +:+ ti +:+ ljust 30 name +:+ rjust 10 (format_5f scaled)
    +:+ " ms".

(** [v == 1] *)
Definition py_eq_one (v : value) : bool :=
  match v with
  | VInt z => (z =? 1)%Z
  | VBool b => b
  | VFloat f => PrimFloat.eqb f 1%float
  | _ => false
  end.

Section Effects.
Context {S : Type}.
Variable G : gmap string value.

Definition print (line : string) : M S unit :=
  w <~ get_world ;;
  set_world (World (w_time w) (w_files w) (w_stdout w ++ [line])
               (w_stderr w) (w_globals w)).

(** [time.time()] *)
Definition time_time : M S float :=
  load_module_attr G "time" "time" "time" ;;;
  w <~ get_world ;;
  ret (w_time w).

(** The [for _ in range(times): ret = func(...)] loop.  The local [ret]
    is [None] here while it is unbound. *)
Fixpoint repeat_call (func : pyfunction) (a : args) (k : nat)
    (ret_var : option value) : M S (option value) :=
  match k with
  | O => ret ret_var
  | Datatypes.S k' =>
      v <~ call func a ;;
      repeat_call func a k' (Some v)
  end.

(** Reading the local [ret] after the loop. *)
Definition load_ret (ret_var : option value) : M S value :=
  match ret_var with
  | Some v => ret v
  | None =>
      raise (Exn UnboundLocalError
               "local variable 'ret' referenced before assignment" [])
  end.
End Effects.

(** ** timing *)

Record timing_options : Type := TimingOptions {
  activate : bool;
  return_time : bool;
  factor : float;
  split_before : bool;
  split_after : bool;
  times : Z
}.

(** The defaults of [timing] and of [Timing.__init__]. *)
Definition timing_defaults : timing_options :=
  TimingOptions true false 1000%float false false 1.

Section Timing_function.
Context `{PyRuntime}.
Variable G : gmap string value.
Variable opts : timing_options.
Variable func : pyfunction.

(** [wrap_func] of [decor_timing]; its cell is the [nonlocal time_run]. *)
Definition timing_wrap_func (a : args) : M Z value :=
  time1 <~ time_time G ;;
  ret_var <~ repeat_call func a (Z.to_nat (times opts)) None ;;
  time2 <~ time_time G ;;
  let run_time := PrimFloat.sub time2 time1 in
  (if split_before opts then
     time_run <~ get_cell ;;
     print (split_line time_run) ;;;
     set_cell (time_run + 1)
   else ret tt) ;;;
  let ti := if (times opts =? 1)%Z then EmptyString
            else "x" +:+ pretty (times opts) +:+ " " in
  print (runtime_line ti (fn_name func)
           (PrimFloat.mul run_time (factor opts))) ;;;
  (if split_after opts then
     time_run <~ get_cell ;;
     print (split_line time_run) ;;;
     set_cell (time_run + 1)
   else ret tt) ;;;
  if return_time opts then
    ret (VFloat (PrimFloat.mul run_time (factor opts)))
  else load_ret ret_var.

(** [decor_timing func]: the callable that replaces the target. *)
Definition decor_timing : args -> M Z value :=
  if activate opts then timing_wrap_func else call func.
End Timing_function.

(** ** Timing *)

(** The attributes of a [Timing] instance. *)
Record Timing_object : Type := TimingObject {
  self_activate : bool;
  self_return_time : bool;
  self_factor : float;
  self_time_run : Z;
  self_split_before : bool;
  self_split_after : bool;
  self_times : Z
}.

(** [Timing.__init__] *)
Definition Timing_init (opts : timing_options) : Timing_object :=
  TimingObject (activate opts) (return_time opts) (factor opts) 0
    (split_before opts) (split_after opts) (times opts).

Definition bump_time_run (self : Timing_object) : Timing_object :=
  TimingObject (self_activate self) (self_return_time self)
    (self_factor self) (self_time_run self + 1) (self_split_before self)
    (self_split_after self) (self_times self).

Section Timing_class.
Context `{PyRuntime}.
Variable G : gmap string value.
Variable func : pyfunction.

(** [wrap_func] of [Timing.__call__]; its cell is the object [self].  The
    expression that chooses [ti] reads the free name [times], which no
    enclosing function binds. *)
Definition Timing_wrap_func (a : args) : M Timing_object value :=
  time1 <~ time_time G ;;
  self <~ get_cell ;;
  ret_var <~ repeat_call func a (Z.to_nat (self_times self)) None ;;
  time2 <~ time_time G ;;
  let run_time := PrimFloat.sub time2 time1 in
  self <~ get_cell ;;
  (if self_split_before self then
     print (split_line (self_time_run self)) ;;;
     set_cell (bump_time_run self)
   else ret tt) ;;;
  times_global <~ load_global G "times" ;;
  self <~ get_cell ;;
  let ti := if py_eq_one times_global then EmptyString
            else "x" +:+ pretty (self_times self) +:+ " " in
  print (runtime_line ti (fn_name func)
           (PrimFloat.mul run_time (self_factor self))) ;;;
  (if self_split_after self then
     print (split_line (self_time_run self)) ;;;
     set_cell (bump_time_run self)
   else ret tt) ;;;
  if self_return_time self then
    ret (VFloat (PrimFloat.mul run_time (self_factor self)))
  else load_ret ret_var.

(** [Timing.__call__ self func], run at decoration time on the object
    [self]. *)
Definition Timing_call (self : Timing_object)
    : args -> M Timing_object value :=
  if self_activate self then Timing_wrap_func else call func.
End Timing_class.

(** ** reduce_query *)

(** The [nonlocal] variables [df] and [df_date] of [inner]. *)
Record query_cache : Type := QueryCache {
  df : value;
  df_date : option Z
}.

Section ReduceQuery.
Context `{PyRuntime}.
Variable G : gmap string value.
Variable file_path : option string.
Variable always_query : bool.
Variable func : pyfunction.

(** [inner func] binds [df = None] and [df_date = None]. *)
Definition reduce_query_inner : outcome query_cache :=
  let _ := func in Returns (QueryCache VNone None).

(** [os.path.getmtime(file_path)] *)
Definition getmtime : M query_cache float :=
  load_module_attr G "os" "os" "path" ;;;
  match file_path with
  | None =>
      raise (Exn TypeError
               "stat: path should be string, bytes, os.PathLike or integer, not NoneType"
               [])
  | Some p =>
      w <~ get_world ;;
      match w_files w !! p with
      | Some f => ret (f_mtime f)
      | None =>
          raise (Exn FileNotFoundError
                   ("[Errno 2] No such file or directory: '" +:+ p +:+ "'")
                   [])
      end
  end.

(** [datetime.datetime.fromtimestamp(t).date()] *)
Definition fromtimestamp_date (t : float) : M query_cache Z :=
  load_module_attr G "datetime" "datetime" "datetime" ;;;
  ret (local_date t).

(** [datetime.datetime.now().date()] *)
Definition now_date : M query_cache Z :=
  load_module_attr G "datetime" "datetime" "datetime" ;;;
  w <~ get_world ;;
  ret (local_date (w_time w)).

(** [d.to_csv(file_path, index=False)]: the file is replaced and stamped
    with the current time; without a path pandas returns the text and
    writes nothing. *)
Definition to_csv (d : value) : M query_cache unit :=
  match d with
  | VFrame rows =>
      match file_path with
      | None => ret tt
      | Some p =>
          w <~ get_world ;;
          set_world
            (World (w_time w)
               (<[p := File (csv_dump rows) (w_time w)]> (w_files w))
               (w_stdout w) (w_stderr w) (w_globals w))
      end
  | _ => raise (attribute_error d "to_csv")
  end.

(** [pd.read_csv(file_path)] *)
Definition read_csv : M query_cache value :=
  load_module_attr G "pd" "pandas" "read_csv" ;;;
  match file_path with
  | None =>
      raise (Exn ValueError
               "Invalid file path or buffer object type: <class 'NoneType'>"
               [])
  | Some p =>
      w <~ get_world ;;
      match w_files w !! p with
      | Some f => fun m => (csv_load (f_text f), m)
      | None =>
          raise (Exn FileNotFoundError
                   ("[Errno 2] No such file or directory: '" +:+ p +:+ "'")
                   [])
      end
  end.

Definition set_df (v : value) : M query_cache unit :=
  c <~ get_cell ;; set_cell (QueryCache v (df_date c)).

Definition set_df_date (d : option Z) : M query_cache unit :=
  c <~ get_cell ;; set_cell (QueryCache (df c) d).

Definition reduce_query_wrapper (a : args) : M query_cache value :=
  if always_query then call func a
  else
    file_date <~ try_except
                   (t <~ getmtime ;;
                    d <~ fromtimestamp_date t ;;
                    ret (Some d))
                   (ExceptClass FileNotFoundError)
                   (fun _ => ret None) ;;
    today <~ now_date ;;
    let is_file_up_to_date := bool_decide (file_date = Some today) in
    c <~ get_cell ;;
    today <~ now_date ;;
    let is_mem_up_to_date := bool_decide (df_date c = Some today) in
    (if is_mem_up_to_date then
       if negb is_file_up_to_date then to_csv (df c) else ret tt
     else if is_file_up_to_date then
       d <~ read_csv ;;
       set_df d ;;;
       set_df_date file_date
     else
       d <~ call func a ;;
       set_df d ;;;
       to_csv d ;;;
       today <~ now_date ;;
       set_df_date (Some today)) ;;;
    c <~ get_cell ;;
    ret (df c).
End ReduceQuery.

(** ** Sequences of outer calls *)

(** The machine after the first [k] outer calls of a wrapped callable, the
    call number [i] (from 0) receiving the arguments [argv i]. *)
Fixpoint after_calls {S} (wrapped : args -> M S value) (argv : nat -> args)
    (k : nat) (m : machine S) : machine S :=
  match k with
  | O => m
  | Datatypes.S k' =>
      snd (wrapped (argv k') (after_calls wrapped argv k' m))
  end.

(** What outer call number [k] gives back. *)
Definition result_of_call {S} (wrapped : args -> M S value)
    (argv : nat -> args) (k : nat) (m : machine S) : outcome value :=
  fst (wrapped (argv k) (after_calls wrapped argv k m)).

(** The world after [k] successive invocations of the target. *)
Fixpoint world_after (func : pyfunction) (a : args) (k : nat) (w : world)
    : world :=
  match k with
  | O => w
  | Datatypes.S k' => world_after func a k' (snd (fn_body func a w))
  end.

(** The outcome of invocation number [k] (counting from 0). *)
Definition outcome_at (func : pyfunction) (a : args) (k : nat) (w : world)
    : outcome value :=
  fst (fn_body func a (world_after func a k w)).

(** The outcome is an exception that [except spec] catches. *)
Definition raises_matching (spec : except_spec) (r : outcome value) : Prop :=
  match r with
  | Returns _ => False
  | Raises e => exc_matches spec e = true
  end.

(** The machine [m] after [k] more invocations with the arguments [a]
    that leave the world [w]. *)
Definition push_calls {S} (a : args) (k : nat) (m : machine S) (w : world)
    : machine S :=
  Machine (m_cell m) (repeat a k ++ m_calls m) w.

(** ** Sample targets, taken from the docstrings of the module *)

Definition set_global (name : string) (v : value) (w : world) : world :=
  World (w_time w) (w_files w) (w_stdout w) (w_stderr w)
    (<[name := v]> (w_globals w)).

Definition write_stdout (line : string) (w : world) : world :=
  World (w_time w) (w_files w) (w_stdout w ++ [line]) (w_stderr w)
    (w_globals w).

Definition advance_clock (dt : float) (w : world) : world :=
  World (PrimFloat.add (w_time w) dt) (w_files w) (w_stdout w) (w_stderr w)
    (w_globals w).

(** The target of the [retry] docstring: it raises [ValueError] while the
    global [a] is below 2, bumping [a] each time, then prints [done]. *)
Definition do_sth_flaky : pyfunction :=
  PyFunction "do_sth" "<stdin>" 3
    (fun _ w =>
       match w_globals w !! "a" with
       | Some (VInt x) =>
           if (x <? 2)%Z then
             (Raises (Exn ValueError "" []), set_global "a" (VInt (x + 1)) w)
           else (Returns VNone, write_stdout "done" w)
       | _ => (Raises (Exn NameError "name 'a' is not defined" []), w)
       end).

(** The target of the [limit_run] docstring. *)
Definition do_sth_run : pyfunction :=
  PyFunction "do_sth" "<stdin>" 2
    (fun _ w => (Returns VNone, write_stdout "run" w)).

(** A target that is interrupted from the keyboard. *)
Definition do_sth_interrupted : pyfunction :=
  PyFunction "do_sth" "<stdin>" 2
    (fun _ w =>
       (Raises (Exn KeyboardInterrupt "" ["File <stdin>, line 2"]), w)).

(** The target of the [pass_except] docstring: [assert False]. *)
Definition do_sth_assert : pyfunction :=
  PyFunction "do_sth" "<stdin>" 2
    (fun _ w =>
       (Raises (Exn AssertionError "" ["File <stdin>, line 2"]), w)).

(** After the target of the [timing] docstring: it sleeps an eighth of a
    second and returns a string. *)
Definition test_yay : pyfunction :=
  PyFunction "test" "<stdin>" 2
    (fun _ w => (Returns (VStr "yay"), advance_clock 0.125%float w)).

(** A query that returns a one-row table. *)
Definition query_sth : pyfunction :=
  PyFunction "query_sth" "<stdin>" 2
    (fun _ w => (Returns (VFrame [["id"]; ["1"]]), w)).

Definition no_args : args := Args [] [].

Definition empty_world : world := World 0%float ∅ [] [] ∅.

Definition world_with_a (x : Z) : world :=
  set_global "a" (VInt x) empty_world.

(** A small runtime to run the samples with: instants from the epoch on
    fall on day 0, earlier ones on day -1; a frame is written one row per
    line, its cells separated by commas. *)
Definition sample_runtime : PyRuntime :=
  {| format_5f := fun _ => "0.00000";
     local_date := fun t => if PrimFloat.ltb t 0%float then (-1)%Z else 0%Z;
     csv_dump := fun rows =>
       String.concat (String "010"%char EmptyString)
         (map (String.concat ",") rows);
     csv_load := fun text => Returns (VFrame [[text]]) |}.

(** The machine after [k] outer calls of a [limit_run n] wrapper that was
    created with quota [n], and what call number [k] gives back. *)
Definition quota_after (n : Z) (func : pyfunction) (argv : nat -> args)
    (calls : list args) (w : world) (k : nat) : machine (option Z) :=
  after_calls (limit_run_wrapper module_globals (Some n) func) argv k
    (Machine (Some n) calls w).

Definition quota_result (n : Z) (func : pyfunction) (argv : nat -> args)
    (calls : list args) (w : world) (k : nat) : outcome value :=
  result_of_call (limit_run_wrapper module_globals (Some n) func) argv k
    (Machine (Some n) calls w).

(** The value bound to the local [ret] after [k] invocations that all
    return, starting from [ret_var]. *)
Definition last_ret (func : pyfunction) (a : args) (k : nat) (w : world)
    (ret_var : option value) : option value :=
  match k with
  | O => ret_var
  | Datatypes.S j =>
      match outcome_at func a j w with
      | Returns v => Some v
      | Raises _ => None
      end
  end.

(** The namespace the cache would need: the module's own, with
    [datetime] and [pd] bound to the libraries these names stand for (as
    [import datetime] and [import pandas as pd] would do). *)
Definition with_imports : gmap string value :=
  <["pd" := VModule "pandas"]>
    (<["datetime" := VModule "datetime"]> module_globals).

(** The calendar day of the last modification of the file at [p]. *)
Definition file_day `{PyRuntime} (p : string) (w : world) : option Z :=
  match w_files w !! p with
  | Some f => Some (local_date (f_mtime f))
  | None => None
  end.

(** The calendar day of the clock. *)
Definition today `{PyRuntime} (w : world) : Z := local_date (w_time w).

(** The world once the frame [rows] has been written to [p]. *)
Definition written `{PyRuntime} (p : string) (rows : frame) (w : world)
    : world :=
  World (w_time w) (<[p := File (csv_dump rows) (w_time w)]> (w_files w))
    (w_stdout w) (w_stderr w) (w_globals w).

(** * The other decorators of the module *)

(** Built-in exception classes that have no constructor of their own above
    are given by their name and base. *)
Definition LookupError : pyclass := UserClass "LookupError" Exception.
Definition KeyError : pyclass := UserClass "KeyError" LookupError.

(** [str(text)] of an optional string. *)
Definition str_of_text (text : option string) : string :=
  match text with
  | Some s => s
  | None => "None"
  end.

(** ** deprecated *)

Section Deprecated.
Variable G : gmap string value.
Variable text : option string.
Variable print_only : bool.
Variable func : pyfunction.

Definition deprecated_wrapper (a : args) : M unit value :=
  (if print_only then
     load_function G "_repr_func" ;;;
     print ("DeprecationWarning: " +:+ _repr_func func +:+ ": "
              +:+ str_of_text text)
   else raise (Exn DeprecationWarning (str_of_text text) [])) ;;;
  call func a.
End Deprecated.

(** ** wip_warning *)

(** The class that [wip_warning] defines in its body. *)
Definition WorkInProcessWarning : pyclass :=
  UserClass "WorkInProcessWarning" Exception.

Section WipWarning.
Variable G : gmap string value.
Variable text : string.
Variable print_only : bool.
Variable func : pyfunction.

Definition wip_warning_wrapper (a : args) : M unit value :=
  (if print_only then
     load_function G "_repr_func" ;;;
     print ("WorkInProcessWarning: " +:+ _repr_func func +:+ ": " +:+ text)
   else raise (Exn WorkInProcessWarning text [])) ;;;
  call func a.
End WipWarning.

(** ** repeat *)

(** The [assert] that [repeat n] runs before it builds anything (the bound
    is an [int] here, so only [n >= 1] is left to check). *)
Definition repeat_check (n : Z) : outcome unit :=
  if (1 <=? n)%Z then Returns tt else Raises (Exn AssertionError "" []).

Section Repeat.
Variable n : Z.
Variable func : pyfunction.

(** [for _ in range(n): result = func(...)] *)
Fixpoint repeat_loop (a : args) (k : nat) (result : value) : M unit value :=
  match k with
  | O => ret result
  | Datatypes.S k' =>
      v <~ call func a ;;
      repeat_loop a k' v
  end.

Definition repeat_wrapper (a : args) : M unit value :=
  repeat_loop a (Z.to_nat n) VNone.
End Repeat.

(** ** slow_down *)

Section SlowDown.
(** What [sleep(delay)] does to the world for the configured [delay]: the
    library blocks for at least that long and refuses a negative delay. *)
Variable sleep : world -> outcome unit * world.
Variable func : pyfunction.

Definition do_sleep : M unit unit :=
  fun m => let (r, w) := sleep (m_world m) in
           (r, Machine (m_cell m) (m_calls m) w).

Definition slow_down_wrapper (a : args) : M unit value :=
  result <~ call func a ;;
  do_sleep ;;;
  ret result.
End SlowDown.

(** ** override_args *)

(** Keyword arguments are a [dict]: keys in insertion order, each once. *)
Fixpoint dict_get (k : string) (d : list (string * value)) : option value :=
  match d with
  | [] => None
  | (k', v) :: d' => if String.eqb k' k then Some v else dict_get k d'
  end.

(** [d[k] = v]: the value is replaced in place, a new key goes last. *)
Fixpoint dict_set (k : string) (v : value) (d : list (string * value))
    : list (string * value) :=
  match d with
  | [] => [(k, v)]
  | (k', v') :: d' =>
      if String.eqb k' k then (k', v) :: d' else (k', v') :: dict_set k v d'
  end.

(** [d.update(o)] *)
Definition dict_update (d o : list (string * value))
    : list (string * value) :=
  fold_left (fun acc kv => dict_set (fst kv) (snd kv) acc) o d.

(** [for i in range(min_args_length): args[i] = override_args[i]].  Every
    index of the loop is within both lists. *)
Definition override_positional (overrides positional : list value)
    : list value :=
  fold_left
    (fun acc i =>
       match overrides !! i with
       | Some o => <[i := o]> acc
       | None => acc
       end)
    (seq 0 (Nat.min (length positional) (length overrides)))
    positional.

Section OverrideArgs.
Variable override_pos : list value.
Variable override_kwargs : list (string * value).
Variable f : pyfunction.

Definition override_args_inner (a : args) : M unit value :=
  call f (Args (override_positional override_pos (a_pos a))
            (dict_update (a_kw a) override_kwargs)).
End OverrideArgs.

(** ** force_input_arg *)

Definition newline : string := String "010"%char EmptyString.

Section ForceInputArg.
Variable kwargs_to_force : list string.
Variable kwargs : list (string * value).
Variable func : pyfunction.

(** [inner func], at decoration time. *)
Definition force_input_arg_inner : outcome unit :=
  match kwargs with
  | [] => Returns tt
  | _ :: _ =>
      Raises (Exn ValueError
                ("Only pass positional argument as key name of forced kwargs."
                   +:+ newline +:+ "Example: " +:+ fn_name func +:+ "("
                   +:+ String.concat ", "
                         (map (fun kv => "'" +:+ fst kv +:+ "'") kwargs)
                   +:+ ")") [])
  end.

(** The loop over the forced names. *)
Fixpoint force_check (names : list string) (kw : list (string * value))
    : M unit unit :=
  match names with
  | [] => ret tt
  | k :: names' =>
      match dict_get k kw with
      | Some _ => force_check names' kw
      | None =>
          raise (Exn TypeError
                   ("Keyword argument `" +:+ k +:+ "` must be passed") [])
      end
  end.

Definition force_input_arg_wrapper (a : args) : M unit value :=
  force_check kwargs_to_force (a_kw a) ;;;
  call func a.
End ForceInputArg.

(** ** accepts, returns and info *)

(** A class object is given by the name that [str] shows between quotes,
    which is what [info] extracts from it. *)
Definition type_of (v : value) : string :=
  match v with
  | VNone => "NoneType"
  | VBool _ => "bool"
  | VInt _ => "int"
  | VFloat _ => "float"
  | VStr _ => "str"
  | VFrame _ => "pandas.core.frame.DataFrame"
  | VModule _ => "module"
  | VFunction _ => "function"
  end.

(** [info]; [flag] is false for 0 and true for 1. *)
Definition info (fname : string) (expected actual : list string)
    (flag : bool) : string :=
  "'" +:+ fname +:+ "' method "
    +:+ (if flag then "returns" else "accepts")
    +:+ " (" +:+ String.concat ", " expected +:+ "), but "
    +:+ (if flag then "result is" else "was given")
    +:+ " (" +:+ String.concat ", " actual +:+ ")".

(** [v == k] for a small non-negative integer [k]. *)
Definition py_eq_int (v : value) (k : Z) : bool :=
  match v with
  | VInt z => (z =? k)%Z
  | VBool b => ((if b then 1 else 0) =? k)%Z
  | VFloat f => PrimFloat.eqb f (PrimFloat.of_uint63 (Uint63.of_Z k))
  | _ => false
  end.

(** The debug level that [accepts] reads before it builds the decorator:
    a missing [debug] key is a [KeyError]. *)
Definition accepts_debug (kw : list (string * value)) : outcome value :=
  match kw with
  | [] => Returns (VInt 1)
  | _ :: _ =>
      match dict_get "debug" kw with
      | Some v => Returns v
      | None => Raises (Exn KeyError "'debug'" [])
      end
  end.

(** What [str(sys.stderr)] shows. *)
Definition stderr_repr : string :=
  "<_io.TextIOWrapper name='<stderr>' mode='w' encoding='utf-8'>".

Section TypeChecks.
Variable G : gmap string value.
Variable debug : value.
Variable f : pyfunction.

(** [newf] takes positional arguments only. *)
Definition unexpected_keyword (qualname : string) (a : args)
    : M unit unit :=
  match a_kw a with
  | [] => ret tt
  | (k, _) :: _ =>
      raise (Exn TypeError
               (qualname +:+ "() got an unexpected keyword argument '"
                  +:+ k +:+ "'") [])
  end.

(** The two branches on [debug] after a mismatch.  [print] is given the
    stream as its first value, so the text goes to standard output. *)
Definition report_mismatch (msg : string) : M unit unit :=
  if py_eq_int debug 1 then
    load_module_attr G "sys" "sys" "stderr" ;;;
    print (stderr_repr +:+ " TypeWarning:  " +:+ msg)
  else if py_eq_int debug 2 then
    raise (Exn TypeError msg [])
  else ret tt.

(** [newf] of [accepts types]. *)
Definition accepts_newf (types : list string) (a : args) : M unit value :=
  unexpected_keyword "accepts.<locals>.decorator.<locals>.newf" a ;;;
  if py_eq_int debug 0 then call f (Args (a_pos a) [])
  else
    (if bool_decide (length (a_pos a) = length types) then ret tt
     else raise (Exn AssertionError "" [])) ;;;
    let argtypes := map type_of (a_pos a) in
    (if bool_decide (argtypes = types) then ret tt
     else
       load_function G "info" ;;;
       report_mismatch (info (fn_name f) types argtypes false)) ;;;
    call f (Args (a_pos a) []).

(** [newf] of [returns ret_type]. *)
Definition returns_newf (ret_type : string) (a : args) : M unit value :=
  unexpected_keyword "returns.<locals>.decorator.<locals>.newf" a ;;;
  result <~ call f (Args (a_pos a) []) ;;
  if py_eq_int debug 0 then ret result
  else
    let res_type := type_of result in
    (if bool_decide (res_type = ret_type) then ret tt
     else
       load_function G "info" ;;;
       report_mismatch (info (fn_name f) [ret_type] [res_type] true)) ;;;
    ret result.
End TypeChecks.

(** The debug level that [returns] reads inside its [try]: the handler
    [except KeyError(key)] evaluates the free name [key] when a [KeyError]
    reaches it, and an instance is no class to catch. *)
Definition returns_debug (G : gmap string value)
    (kw : list (string * value)) : M unit value :=
  match kw with
  | [] => ret (VInt 1)
  | _ :: _ =>
      match dict_get "debug" kw with
      | Some v => ret v
      | None =>
          load_global G "key" ;;;
          raise (Exn TypeError
                   "catching classes that do not inherit from BaseException is not allowed"
                   [])
      end
  end.

(** ** Wrappers as targets *)

(** A stateless wrapper seen as a function object again, so that another
    decorator can take it: [functools.wraps] gives it the name of [func],
    its code is that of the wrapper, at [line] of the module's file. *)
Definition as_function (func : pyfunction) (filename : string) (line : Z)
    (wrapper : args -> M unit value) : pyfunction :=
  PyFunction (fn_name func) filename line
    (fun a w =>
       let (r, m) := wrapper a (Machine tt [] w) in (r, m_world m)).

(** ** Whole calls of the timing wrapper *)

(** The lines that one call of [wrap_func] prints after the target's own
    output, [scaled] being the duration it reports. *)
Definition timing_report `{PyRuntime} (opts : timing_options)
    (name : string) (time_run : Z) (scaled : float) : list string :=
  (if split_before opts then [split_line time_run] else [])
  ++ [runtime_line
        (if (times opts =? 1)%Z then EmptyString
         else "x" +:+ pretty (times opts) +:+ " ")
        name scaled]
  ++ (if split_after opts then
        [split_line (if split_before opts then time_run + 1 else time_run)]
      else []).

(** The number of separators a call prints. *)
Definition splits (opts : timing_options) : Z :=
  (if split_before opts then 1 else 0) + (if split_after opts then 1 else 0).

(** * Properties *)

(** ** The logs of invocations *)

Lemma repeat_snoc_cons {A} (x : A) (k : nat) (l : list A) :
  repeat x k ++ x :: l = x :: repeat x k ++ l.
Proof.
  induction k as [|k IH]; simpl; [reflexivity|].
  now rewrite IH.
Qed.

Lemma invocations_push_calls {S} (a : args) (k : nat) (m : machine S)
    (w : world) :
  invocations m (push_calls a k m w) = Z.of_nat k.
Proof.
  unfold invocations, push_calls; simpl.
  rewrite length_app, repeat_length. lia.
Qed.

Lemma call_eq {S} (func : pyfunction) (a : args) (m : machine S) :
  call func a m =
  (fst (fn_body func a (m_world m)),
   Machine (m_cell m) (a :: m_calls m) (snd (fn_body func a (m_world m)))).
Proof.
  unfold call. now destruct (fn_body func a (m_world m)).
Qed.

Lemma push_calls_step {S} (func : pyfunction) (a : args) (k : nat)
    (m : machine S) :
  push_calls a k
    (Machine (m_cell m) (a :: m_calls m) (snd (fn_body func a (m_world m))))
    (world_after func a k (snd (fn_body func a (m_world m)))) =
  push_calls a (Datatypes.S k) m
    (world_after func a (Datatypes.S k) (m_world m)).
Proof.
  unfold push_calls; simpl. now rewrite repeat_snoc_cons.
Qed.

(** ** Name lookups in the namespace of the module *)

Lemma load_function_repr_func {S} (m : machine S) :
  load_function module_globals "_repr_func" m = (Returns tt, m).
Proof. reflexivity. Qed.

Lemma time_time_module_globals {S} (m : machine S) :
  time_time module_globals m = (Returns (w_time (m_world m)), m).
Proof. reflexivity. Qed.

Lemma load_global_times {S} (m : machine S) :
  load_global module_globals "times" m =
  (Raises (Exn NameError "name 'times' is not defined" []), m).
Proof. reflexivity. Qed.

(** ** retry *)

Section RetryFacts.
Variable G : gmap string value.
Variable n : Z.
Variable exception : except_spec.
Variable func : pyfunction.
Variable a : args.

(** While the target raises matching exceptions the loop goes on. *)
Lemma retry_loop_all_fail (k : nat) : forall m : machine unit,
  (forall i, (i < k)%nat ->
     raises_matching exception (outcome_at func a i (m_world m))) ->
  retry_loop exception func a k m =
  (Returns None, push_calls a k m (world_after func a k (m_world m))).
Proof.
  induction k as [|k IH]; intros m Hfail.
  - destruct m; reflexivity.
  - pose proof (Hfail O ltac:(lia)) as H0.
    unfold outcome_at in H0; simpl in H0.
    simpl. unfold bind at 1, try_except, bind at 1, ret.
    rewrite call_eq.
    destruct (fst (fn_body func a (m_world m))) as [v|e] eqn:Hr;
      simpl in H0; [contradiction|].
    rewrite H0.
    rewrite IH.
    + simpl. now rewrite push_calls_step.
    + intros i Hi. simpl.
      apply (Hfail (Datatypes.S i)). lia.
Qed.

(** The loop ends at the first invocation that does not raise a matching
    exception, with the outcome of that invocation. *)
Lemma retry_loop_stops (k j : nat) : forall m : machine unit,
  (forall i, (i < k)%nat ->
     raises_matching exception (outcome_at func a i (m_world m))) ->
  ~ raises_matching exception (outcome_at func a k (m_world m)) ->
  retry_loop exception func a (k + Datatypes.S j) m =
  (match outcome_at func a k (m_world m) with
   | Returns v => Returns (Some v)
   | Raises e => Raises e
   end,
   push_calls a (Datatypes.S k) m
     (world_after func a (Datatypes.S k) (m_world m))).
Proof.
  induction k as [|k IH]; intros m Hfail Hstop.
  - unfold outcome_at in *; simpl in *.
    unfold bind at 1, try_except, bind at 1, ret.
    rewrite call_eq.
    destruct (fst (fn_body func a (m_world m))) as [v|e] eqn:Hr.
    + reflexivity.
    + simpl in Hstop.
      destruct (exc_matches exception e); [congruence|reflexivity].
  - pose proof (Hfail O ltac:(lia)) as H0.
    unfold outcome_at in H0; simpl in H0.
    change (Datatypes.S k + Datatypes.S j)%nat
      with (Datatypes.S (k + Datatypes.S j)).
    simpl retry_loop. unfold bind at 1, try_except, bind at 1, ret.
    rewrite call_eq.
    destruct (fst (fn_body func a (m_world m))) as [v|e] eqn:Hr;
      simpl in H0; [contradiction|].
    rewrite H0.
    rewrite IH.
    + simpl m_world. unfold outcome_at.
      now rewrite push_calls_step.
    + intros i Hi. apply (Hfail (Datatypes.S i)). lia.
    + exact Hstop.
Qed.
End RetryFacts.

(** C1.  [retry n exception]: when the target raises a matching exception
    on its first [k < n] invocations and returns [v] on the next one, the
    wrapper returns [v] and has invoked the target exactly [k + 1] times;
    when the target raises a matching exception on each of its first [n]
    invocations, the wrapper has invoked it exactly [n] times and raises
    the [ValueError] whose message names the function, its file and line,
    and [n]. *)
Theorem retry_returns_or_exhausts (n : Z) (exception : except_spec)
    (func : pyfunction) (a : args) (m : machine unit) :
  (forall (k : nat) (v : value),
     Z.of_nat k < n ->
     (forall i, (i < k)%nat ->
        raises_matching exception (outcome_at func a i (m_world m))) ->
     outcome_at func a k (m_world m) = Returns v ->
     retry_wrapper module_globals n exception func a m =
       (Returns v,
        push_calls a (Datatypes.S k) m
          (world_after func a (Datatypes.S k) (m_world m)))
     /\ invocations m
          (snd (retry_wrapper module_globals n exception func a m)) =
        Z.of_nat k + 1)
  /\
  (0 <= n ->
   (forall i, (i < Z.to_nat n)%nat ->
      raises_matching exception (outcome_at func a i (m_world m))) ->
   retry_wrapper module_globals n exception func a m =
     (Raises (Exn ValueError
                (_repr_func func +:+ " exceeds " +:+ pretty n +:+ " retries")
                []),
      push_calls a (Z.to_nat n) m
        (world_after func a (Z.to_nat n) (m_world m)))
   /\ invocations m
        (snd (retry_wrapper module_globals n exception func a m)) = n).
Proof.
  split.
  - intros k v Hk Hfail Hok.
    assert (Heq : retry_wrapper module_globals n exception func a m =
                  (Returns v,
                   push_calls a (Datatypes.S k) m
                     (world_after func a (Datatypes.S k) (m_world m)))).
    { unfold retry_wrapper, bind at 1.
      replace (Z.to_nat n)
        with (k + Datatypes.S (Z.to_nat n - k - 1))%nat by lia.
      rewrite retry_loop_stops; [| exact Hfail | rewrite Hok; simpl; tauto].
      now rewrite Hok. }
    split; [exact Heq|].
    rewrite Heq. simpl snd. rewrite invocations_push_calls. lia.
  - intros Hn Hfail.
    assert (Heq : retry_wrapper module_globals n exception func a m =
                  (Raises (retry_error n func),
                   push_calls a (Z.to_nat n) m
                     (world_after func a (Z.to_nat n) (m_world m)))).
    { unfold retry_wrapper, bind at 1.
      rewrite retry_loop_all_fail by exact Hfail.
      unfold bind. rewrite load_function_repr_func. reflexivity. }
    split; [exact Heq|].
    rewrite Heq. simpl snd. rewrite invocations_push_calls. lia.
Qed.

(** C1 at the docstring's example: with [a = 0] the target fails twice and
    [retry 3] returns on the third invocation, whereas [retry 2] gives up
    after two. *)
Lemma retry_returns_or_exhausts_witness :
  (retry_wrapper module_globals 3 (ExceptClass Exception) do_sth_flaky
     no_args (Machine tt [] (world_with_a 0)) =
     (Returns VNone,
      push_calls no_args 3 (Machine tt [] (world_with_a 0))
        (world_after do_sth_flaky no_args 3 (world_with_a 0)))
   /\ invocations (Machine tt [] (world_with_a 0))
        (snd (retry_wrapper module_globals 3 (ExceptClass Exception)
                do_sth_flaky no_args (Machine tt [] (world_with_a 0)))) =
      2 + 1)
  /\
  (retry_wrapper module_globals 2 (ExceptClass Exception) do_sth_flaky
     no_args (Machine tt [] (world_with_a 0)) =
     (Raises (Exn ValueError "do_sth() in <stdin>, line 3 exceeds 2 retries"
                []),
      push_calls no_args 2 (Machine tt [] (world_with_a 0))
        (world_after do_sth_flaky no_args 2 (world_with_a 0)))
   /\ invocations (Machine tt [] (world_with_a 0))
        (snd (retry_wrapper module_globals 2 (ExceptClass Exception)
                do_sth_flaky no_args (Machine tt [] (world_with_a 0)))) =
      2).
Proof.
  split.
  - apply (proj1 (retry_returns_or_exhausts 3 (ExceptClass Exception)
                    do_sth_flaky no_args (Machine tt [] (world_with_a 0)))
             2%nat VNone).
    + lia.
    + intros [|[|i]] Hi; [vm_compute; reflexivity | vm_compute; reflexivity
                         | lia].
    + vm_compute; reflexivity.
  - apply (proj2 (retry_returns_or_exhausts 2 (ExceptClass Exception)
                    do_sth_flaky no_args (Machine tt [] (world_with_a 0)))).
    + lia.
    + intros [|[|i]] Hi; [vm_compute; reflexivity | vm_compute; reflexivity
                         | simpl in Hi; lia].
Defined.

(** C8.  [retry]: when the target, after [k < n] matching failures, raises
    an exception that does not match the configured kind, the wrapper
    raises that very exception at once; the target has been invoked [k + 1]
    times and is not invoked again. *)
Theorem retry_propagates_non_matching (G : gmap string value) (n : Z)
    (exception : except_spec) (func : pyfunction) (a : args)
    (m : machine unit) (k : nat) (e : exn) :
  Z.of_nat k < n ->
  (forall i, (i < k)%nat ->
     raises_matching exception (outcome_at func a i (m_world m))) ->
  outcome_at func a k (m_world m) = Raises e ->
  exc_matches exception e = false ->
  retry_wrapper G n exception func a m =
    (Raises e,
     push_calls a (Datatypes.S k) m
       (world_after func a (Datatypes.S k) (m_world m)))
  /\ invocations m (snd (retry_wrapper G n exception func a m)) =
     Z.of_nat k + 1.
Proof.
  intros Hk Hfail Hraise Hno.
  assert (Heq : retry_wrapper G n exception func a m =
                (Raises e,
                 push_calls a (Datatypes.S k) m
                   (world_after func a (Datatypes.S k) (m_world m)))).
  { unfold retry_wrapper, bind at 1.
    replace (Z.to_nat n)
      with (k + Datatypes.S (Z.to_nat n - k - 1))%nat by lia.
    rewrite retry_loop_stops;
      [| exact Hfail | rewrite Hraise; simpl; congruence].
    now rewrite Hraise. }
  split; [exact Heq|].
  rewrite Heq. simpl snd. rewrite invocations_push_calls. lia.
Qed.

(** C8 on a target that fails an assertion while [ValueError] is the kind
    being retried. *)
Lemma retry_propagates_non_matching_witness :
  retry_wrapper module_globals 3 (ExceptClass ValueError) do_sth_assert
    no_args (Machine tt [] empty_world) =
    (Raises (Exn AssertionError "" ["File <stdin>, line 2"]),
     push_calls no_args 1 (Machine tt [] empty_world)
       (world_after do_sth_assert no_args 1 empty_world))
  /\ invocations (Machine tt [] empty_world)
       (snd (retry_wrapper module_globals 3 (ExceptClass ValueError)
               do_sth_assert no_args (Machine tt [] empty_world))) =
     0 + 1.
Proof.
  apply (retry_propagates_non_matching module_globals 3
           (ExceptClass ValueError) do_sth_assert no_args
           (Machine tt [] empty_world) 0
           (Exn AssertionError "" ["File <stdin>, line 2"])).
  - lia.
  - intros i Hi; lia.
  - reflexivity.
  - vm_compute; reflexivity.
Defined.

(** ** pass_except *)

(** C7, as stated, fails: an interrupt from the keyboard is not an
    [Exception], the handler does not catch it and the wrapper raises it. *)
Lemma pass_except_propagates_KeyboardInterrupt :
  fst (fn_body do_sth_interrupted no_args empty_world) =
    Raises (Exn KeyboardInterrupt "" ["File <stdin>, line 2"])
  /\ pass_except_wrapper false do_sth_interrupted no_args
       (Machine tt [] empty_world) =
     (Raises (Exn KeyboardInterrupt "" ["File <stdin>, line 2"]),
      Machine tt [no_args] empty_world)
  /\ fst (pass_except_wrapper false do_sth_interrupted no_args
            (Machine tt [] empty_world)) <> Returns VNone.
Proof.
  split; [reflexivity|]. split; [vm_compute; reflexivity|].
  vm_compute. discriminate.
Qed.

(** C7, amended.  When the target raises an exception that is an instance
    of [Exception], the wrapper returns [None] after that single
    invocation (and, with [print_exception], after writing the traceback to
    standard error); an exception that is not an instance of [Exception]
    is raised by the wrapper unchanged. *)
Theorem pass_except_suppresses_Exception (print_exception : bool)
    (func : pyfunction) (a : args) (m : machine unit) (e : exn)
    (w' : world) :
  fn_body func a (m_world m) = (Raises e, w') ->
  (isinstance e Exception = true ->
   pass_except_wrapper print_exception func a m =
     (Returns VNone,
      Machine tt (a :: m_calls m)
        (if print_exception then
           World (w_time w') (w_files w') (w_stdout w')
             (w_stderr w' ++ exn_tb e) (w_globals w')
         else w')))
  /\
  (isinstance e Exception = false ->
   pass_except_wrapper print_exception func a m =
     (Raises e, Machine tt (a :: m_calls m) w')).
Proof.
  intros Hbody. destruct m as [[] calls w]. simpl in Hbody.
  split; intros Hinst.
  - unfold pass_except_wrapper, try_except, call. simpl.
    rewrite Hbody. simpl. rewrite Hinst.
    destruct print_exception; reflexivity.
  - unfold pass_except_wrapper, try_except, call. simpl.
    rewrite Hbody. simpl. rewrite Hinst. reflexivity.
Qed.

(** The amended C7 on the docstring's [assert False]. *)
Lemma pass_except_suppresses_Exception_witness :
  pass_except_wrapper true do_sth_assert no_args (Machine tt [] empty_world)
  = (Returns VNone,
     Machine tt [no_args]
       (World 0%float ∅ [] ["File <stdin>, line 2"] ∅)).
Proof.
  apply (proj1 (pass_except_suppresses_Exception true do_sth_assert no_args
                  (Machine tt [] empty_world)
                  (Exn AssertionError "" ["File <stdin>, line 2"])
                  empty_world eq_refl)).
  vm_compute; reflexivity.
Defined.

(** ** limit_run *)

Section LimitRunFacts.
Variable n : Z.
Variable func : pyfunction.

(** One outer call with quota left. *)
Lemma limit_run_wrapper_allowed (a : args) (t : Z) (calls : list args)
    (w : world) :
  0 < t ->
  limit_run_wrapper module_globals (Some n) func a
    (Machine (Some t) calls w) =
  (fst (fn_body func a w),
   Machine (Some (t - 1)) (a :: calls) (snd (fn_body func a w))).
Proof.
  intros Ht. unfold limit_run_wrapper, bind at 1, get_cell.
  cbn [m_cell].
  destruct (Z.ltb_spec 0 t) as [_|Hle]; [|lia].
  unfold bind, set_cell. now rewrite call_eq.
Qed.

(** One outer call with the quota used up. *)
Lemma limit_run_wrapper_refused (a : args) (t : Z) (calls : list args)
    (w : world) :
  t <= 0 ->
  limit_run_wrapper module_globals (Some n) func a
    (Machine (Some t) calls w) =
  (Raises (limit_run_error func n), Machine (Some t) calls w).
Proof.
  intros Ht. unfold limit_run_wrapper, bind at 1, get_cell.
  cbn [m_cell].
  destruct (Z.ltb_spec 0 t) as [Hlt|_]; [lia|].
  unfold bind. now rewrite load_function_repr_func.
Qed.

Variable argv : nat -> args.
Variable calls : list args.
Variable w : world.

(** The remaining count after [k] outer calls. *)
Lemma quota_after_cell (k : nat) :
  m_cell (quota_after n func argv calls w k) =
  Some (n - Z.min (Z.of_nat k) (Z.max n 0)).
Proof.
  induction k as [|k IH].
  - unfold quota_after. cbn [after_calls m_cell]. f_equal. lia.
  - change (quota_after n func argv calls w (Datatypes.S k))
      with (snd (limit_run_wrapper module_globals (Some n) func (argv k)
                   (quota_after n func argv calls w k))).
    destruct (quota_after n func argv calls w k) as [c cs w0].
    cbn [m_cell] in IH. subst c.
    destruct (Z_lt_le_dec 0 (n - Z.min (Z.of_nat k) (Z.max n 0)))
      as [Hpos|Hnp].
    + rewrite limit_run_wrapper_allowed by exact Hpos.
      cbn [snd m_cell]. f_equal. lia.
    + rewrite limit_run_wrapper_refused by exact Hnp.
      cbn [snd m_cell]. f_equal. lia.
Qed.

Lemma quota_after_allowed (k : nat) :
  Z.of_nat k < n ->
  limit_run_wrapper module_globals (Some n) func (argv k)
    (quota_after n func argv calls w k) =
  (fst (fn_body func (argv k) (m_world (quota_after n func argv calls w k))),
   Machine (Some (n - Z.of_nat k - 1))
     (argv k :: m_calls (quota_after n func argv calls w k))
     (snd (fn_body func (argv k)
             (m_world (quota_after n func argv calls w k))))).
Proof.
  intros Hk. pose proof (quota_after_cell k) as Hc.
  destruct (quota_after n func argv calls w k) as [c cs w0].
  cbn [m_cell m_calls m_world] in *. subst c.
  rewrite limit_run_wrapper_allowed by lia.
  do 3 f_equal. lia.
Qed.

Lemma quota_after_refused (k : nat) :
  n <= Z.of_nat k ->
  limit_run_wrapper module_globals (Some n) func (argv k)
    (quota_after n func argv calls w k) =
  (Raises (limit_run_error func n), quota_after n func argv calls w k).
Proof.
  intros Hk. pose proof (quota_after_cell k) as Hc.
  destruct (quota_after n func argv calls w k) as [c cs w0].
  cbn [m_cell] in *. subst c.
  now rewrite limit_run_wrapper_refused by lia.
Qed.

Lemma quota_after_frozen (i j : nat) :
  n <= Z.of_nat i -> (i <= j)%nat ->
  quota_after n func argv calls w j = quota_after n func argv calls w i.
Proof.
  intros Hi Hij. induction Hij as [|j Hij IH]; [reflexivity|].
  change (quota_after n func argv calls w (Datatypes.S j))
    with (snd (limit_run_wrapper module_globals (Some n) func (argv j)
                 (quota_after n func argv calls w j))).
  rewrite quota_after_refused by lia. exact IH.
Qed.
End LimitRunFacts.

(** C3.  A [limit_run n] wrapper starts with the remaining count [n], which
    all its outer calls share.  Outer call number [i] (from 0), for
    [i < n], invokes the target exactly once and gives back its outcome;
    from call number [n] on, every call raises the [RuntimeError] that names
    the function and [n], invokes nothing and leaves the state as it was,
    so the log of invocations never grows again.  The remaining count never
    increases. *)
Theorem limit_run_quota (n : Z) (func : pyfunction) (argv : nat -> args)
    (calls : list args) (w : world) (i : nat) :
  limit_run_inner (Some n) func =
    Returns (m_cell (quota_after n func argv calls w 0))
  /\
  (Z.of_nat i < n ->
   quota_result n func argv calls w i =
     fst (fn_body func (argv i) (m_world (quota_after n func argv calls w i)))
   /\ m_calls (quota_after n func argv calls w (Datatypes.S i)) =
      argv i :: m_calls (quota_after n func argv calls w i)
   /\ m_world (quota_after n func argv calls w (Datatypes.S i)) =
      snd (fn_body func (argv i)
             (m_world (quota_after n func argv calls w i))))
  /\
  (n <= Z.of_nat i ->
   quota_result n func argv calls w i =
     Raises (Exn RuntimeError
               (_repr_func func +:+ " exceeds maximum run of " +:+ pretty n
                  +:+ " times") [])
   /\ quota_after n func argv calls w (Datatypes.S i) =
      quota_after n func argv calls w i
   /\ forall j, (i <= j)%nat ->
        m_calls (quota_after n func argv calls w j) =
        m_calls (quota_after n func argv calls w i))
  /\
  (exists t t',
     m_cell (quota_after n func argv calls w i) = Some t
     /\ m_cell (quota_after n func argv calls w (Datatypes.S i)) = Some t'
     /\ t' <= t).
Proof.
  split; [reflexivity|].
  split; [|split].
  - intros Hi.
    unfold quota_result, result_of_call.
    change (quota_after n func argv calls w (Datatypes.S i))
      with (snd (limit_run_wrapper module_globals (Some n) func (argv i)
                   (quota_after n func argv calls w i))).
    fold (quota_after n func argv calls w i).
    rewrite quota_after_allowed by exact Hi.
    repeat split.
  - intros Hi.
    unfold quota_result, result_of_call.
    change (quota_after n func argv calls w (Datatypes.S i))
      with (snd (limit_run_wrapper module_globals (Some n) func (argv i)
                   (quota_after n func argv calls w i))).
    fold (quota_after n func argv calls w i).
    rewrite quota_after_refused by exact Hi.
    repeat split.
    intros j Hj. now rewrite (quota_after_frozen n func argv calls w i j).
  - rewrite !quota_after_cell.
    do 2 eexists. repeat split. lia.
Qed.

(** C3 on the docstring's example, [limit_run 2]: the first call runs the
    target, the third one is refused. *)
Lemma limit_run_quota_witness :
  (quota_result 2 do_sth_run (fun _ => no_args) [] empty_world 0 =
     Returns VNone
   /\ m_calls (quota_after 2 do_sth_run (fun _ => no_args) [] empty_world 1)
      = [no_args])
  /\
  (quota_result 2 do_sth_run (fun _ => no_args) [] empty_world 2 =
     Raises (Exn RuntimeError
               "do_sth() in <stdin>, line 2 exceeds maximum run of 2 times"
               [])
   /\ m_calls (quota_after 2 do_sth_run (fun _ => no_args) [] empty_world 3)
      = [no_args; no_args]).
Proof.
  split.
  - destruct (limit_run_quota 2 do_sth_run (fun _ => no_args) [] empty_world
                0) as (_ & Hrun & _ & _).
    destruct (Hrun ltac:(lia)) as (Hres & Hcalls & _).
    split; [exact Hres | exact Hcalls].
  - destruct (limit_run_quota 2 do_sth_run (fun _ => no_args) [] empty_world
                2) as (_ & _ & Hstop & _).
    destruct (Hstop ltac:(lia)) as (Hres & Hsame & _).
    split; [exact Hres|].
    rewrite Hsame. vm_compute; reflexivity.
Defined.

(** C4, as stated, fails: decorating with the bound 0 raises nothing, it
    yields the wrapper with the remaining count 0. *)
Lemma limit_run_zero_decorates :
  limit_run_inner (Some 0) do_sth_run = Returns (Some 0)
  /\ ~ (exists e, limit_run_inner (Some 0) do_sth_run = Raises e).
Proof.
  split; [reflexivity|].
  intros [e He]. discriminate He.
Qed.

(** C4, amended.  Applying [limit_run] with a bound [n <= 0] raises nothing
    at decoration time; the failure comes at call time: every call of the
    wrapper raises the [RuntimeError] that names the function and [n],
    without invoking the target. *)
Theorem limit_run_non_positive_fails_at_call (n : Z) (func : pyfunction)
    (argv : nat -> args) (calls : list args) (w : world) (i : nat) :
  n <= 0 ->
  limit_run_inner (Some n) func = Returns (Some n)
  /\ quota_result n func argv calls w i =
     Raises (Exn RuntimeError
               (_repr_func func +:+ " exceeds maximum run of " +:+ pretty n
                  +:+ " times") [])
  /\ quota_after n func argv calls w i = Machine (Some n) calls w.
Proof.
  intros Hn. split; [reflexivity|]. split.
  - unfold quota_result, result_of_call.
    fold (quota_after n func argv calls w i).
    now rewrite quota_after_refused by lia.
  - now rewrite (quota_after_frozen n func argv calls w 0 i) by lia.
Qed.

(** The amended C4 at the bound 0. *)
Lemma limit_run_non_positive_fails_at_call_witness :
  limit_run_inner (Some 0) do_sth_run = Returns (Some 0)
  /\ quota_result 0 do_sth_run (fun _ => no_args) [] empty_world 0 =
     Raises (Exn RuntimeError
               "do_sth() in <stdin>, line 2 exceeds maximum run of 0 times"
               [])
  /\ quota_after 0 do_sth_run (fun _ => no_args) [] empty_world 0 =
     Machine (Some 0) [] empty_world.
Proof.
  apply (limit_run_non_positive_fails_at_call 0 do_sth_run
           (fun _ => no_args) [] empty_world 0).
  lia.
Defined.

(** ** The report lines, against the docstrings *)

Example split_line_docstring :
  split_line 0 = "######################### 0 ##########################".
Proof. reflexivity. Qed.

Example runtime_line_docstring :
  @runtime_line
    {| format_5f := fun _ => "100.38185"; local_date := fun _ => 0%Z;
       csv_dump := fun _ => EmptyString; csv_load := fun _ => Returns VNone |}
    EmptyString "test" 100.5%float =
  "Runtime of test                           100.38185 ms".
Proof. reflexivity. Qed.

(** ** timing and Timing *)

Section TimingFacts.
Context `{PyRuntime}.
Variable func : pyfunction.
Variable a : args.

(** The repetition loop, when every invocation returns. *)
Lemma repeat_call_returns {S} (k : nat) :
  forall (m : machine S) (ret_var : option value),
  (forall i, (i < k)%nat ->
     exists v, outcome_at func a i (m_world m) = Returns v) ->
  repeat_call func a k ret_var m =
  (Returns (last_ret func a k (m_world m) ret_var),
   push_calls a k m (world_after func a k (m_world m))).
Proof.
  induction k as [|k IH]; intros m ret_var Hok.
  - destruct m; reflexivity.
  - destruct (Hok O ltac:(lia)) as [v0 Hv0].
    unfold outcome_at in Hv0; simpl in Hv0.
    simpl repeat_call. unfold bind at 1. rewrite call_eq, Hv0.
    rewrite IH.
    + cbn [m_world]. rewrite push_calls_step. f_equal. f_equal.
      destruct k as [|j]; simpl.
      * unfold outcome_at; simpl. now rewrite Hv0.
      * reflexivity.
    + intros i Hi. cbn [m_world].
      destruct (Hok (Datatypes.S i) ltac:(lia)) as [v Hv].
      exists v. exact Hv.
Qed.

(** [wrap_func] of [timing] once the loop has run. *)
Lemma timing_wrap_func_after_loop (opts : timing_options) (time_run : Z)
    (calls : list args) (w : world) (ret_var : option value)
    (m1 : machine Z) :
  repeat_call func a (Z.to_nat (times opts)) None
    (Machine time_run calls w) = (Returns ret_var, m1) ->
  fst (timing_wrap_func module_globals opts func a
         (Machine time_run calls w)) =
    (if return_time opts then
       Returns (VFloat (PrimFloat.mul
                          (PrimFloat.sub (w_time (m_world m1)) (w_time w))
                          (factor opts)))
     else match ret_var with
          | Some v => Returns v
          | None =>
              Raises (Exn UnboundLocalError
                        "local variable 'ret' referenced before assignment"
                        [])
          end)
  /\ m_calls (snd (timing_wrap_func module_globals opts func a
                     (Machine time_run calls w))) = m_calls m1
  /\ m_cell (snd (timing_wrap_func module_globals opts func a
                    (Machine time_run calls w))) =
     m_cell m1 + (if split_before opts then 1 else 0)
       + (if split_after opts then 1 else 0).
Proof.
  intros Hloop.
  remember (timing_wrap_func module_globals opts func a
              (Machine time_run calls w)) as r eqn:Er.
  unfold timing_wrap_func in Er.
  unfold bind at 1 in Er. rewrite time_time_module_globals in Er.
  unfold bind at 1 in Er. rewrite Hloop in Er.
  unfold bind at 1 in Er. rewrite time_time_module_globals in Er.
  destruct m1 as [c1 cs1 w1].
  destruct (split_before opts), (split_after opts), (return_time opts),
    ret_var; cbn in Er; subst r; cbn; repeat split; lia.
Qed.

(** [wrap_func] of [Timing.__call__] stops at the free name [times] once
    the loop has run. *)
Lemma Timing_wrap_func_after_loop (self : Timing_object)
    (calls : list args) (w : world) (ret_var : option value)
    (m1 : machine Timing_object) :
  repeat_call func a (Z.to_nat (self_times self)) None
    (Machine self calls w) = (Returns ret_var, m1) ->
  fst (Timing_wrap_func module_globals func a (Machine self calls w)) =
    Raises (Exn NameError "name 'times' is not defined" [])
  /\ m_calls (snd (Timing_wrap_func module_globals func a
                     (Machine self calls w))) = m_calls m1.
Proof.
  intros Hloop.
  remember (Timing_wrap_func module_globals func a (Machine self calls w))
    as r eqn:Er.
  unfold Timing_wrap_func in Er.
  unfold bind at 1 in Er. rewrite time_time_module_globals in Er.
  unfold bind at 1, get_cell at 1 in Er. cbn [m_cell] in Er.
  unfold bind at 1 in Er. rewrite Hloop in Er.
  unfold bind at 1 in Er. rewrite time_time_module_globals in Er.
  unfold bind at 1, get_cell at 1 in Er.
  destruct m1 as [self1 cs1 w1]. cbn [m_cell] in Er.
  destruct (self_split_before self1).
  - unfold bind at 1, bind at 1, print, bind at 1, get_world, set_world
      in Er.
    cbn [m_world m_cell m_calls] in Er. unfold set_cell in Er.
    cbn [m_world m_calls] in Er.
    unfold bind at 1 in Er. rewrite load_global_times in Er.
    subst r. split; reflexivity.
  - unfold bind at 1, ret at 1 in Er.
    unfold bind at 1 in Er. rewrite load_global_times in Er.
    subst r. split; reflexivity.
Qed.
End TimingFacts.

(** C6.  With [times = 3] and [activate] true, a call of the [timing]
    wrapper on a target whose three invocations return [v1], [v2], [v3]
    invokes the target exactly three times; it returns [v3] alone when
    [return_time] is false and, when [return_time] is true, the float
    [(time2 - time1) * factor], where the two clock readings are taken just
    before and just after the three invocations. *)
Theorem timing_three_times `{PyRuntime} (opts : timing_options)
    (func : pyfunction) (a : args) (time_run : Z) (calls : list args)
    (w : world) (v1 v2 v3 : value) :
  activate opts = true ->
  times opts = 3 ->
  outcome_at func a 0 w = Returns v1 ->
  outcome_at func a 1 w = Returns v2 ->
  outcome_at func a 2 w = Returns v3 ->
  m_calls (snd (decor_timing module_globals opts func a
                  (Machine time_run calls w))) = a :: a :: a :: calls
  /\ invocations (Machine time_run calls w)
       (snd (decor_timing module_globals opts func a
               (Machine time_run calls w))) = 3
  /\ fst (decor_timing module_globals opts func a
            (Machine time_run calls w)) =
     Returns (if return_time opts then
                VFloat (PrimFloat.mul
                          (PrimFloat.sub (w_time (world_after func a 3 w))
                             (w_time w))
                          (factor opts))
              else v3).
Proof.
  intros Hact Htimes H1 H2 H3.
  unfold decor_timing. rewrite Hact.
  assert (Hloop :
    repeat_call func a (Z.to_nat (times opts)) None
      (Machine time_run calls w) =
    (Returns (Some v3),
     push_calls a 3 (Machine time_run calls w) (world_after func a 3 w))).
  { rewrite Htimes. change (Z.to_nat 3) with 3%nat.
    rewrite repeat_call_returns.
    - cbn [m_world last_ret]. now rewrite H3.
    - intros [|[|[|i]]] Hi; cbn [m_world]; eauto. lia. }
  destruct (timing_wrap_func_after_loop func a opts time_run calls w _ _
              Hloop) as (Hres & Hcalls & _).
  split; [|split].
  - rewrite Hcalls. reflexivity.
  - unfold invocations. rewrite Hcalls. cbn. lia.
  - rewrite Hres. cbn [push_calls m_world].
    now destruct (return_time opts).
Qed.

(** C6 on the docstring's target, which sleeps and returns ['yay']: three
    runs, the last value returned. *)
Lemma timing_three_times_witness :
  m_calls (snd (@decor_timing sample_runtime module_globals
                  (TimingOptions true false 1000%float false false 3)
                  test_yay no_args (Machine 0 [] empty_world))) =
    [no_args; no_args; no_args]
  /\ invocations (Machine 0 [] empty_world)
       (snd (@decor_timing sample_runtime module_globals
               (TimingOptions true false 1000%float false false 3)
               test_yay no_args (Machine 0 [] empty_world))) = 3
  /\ fst (@decor_timing sample_runtime module_globals
            (TimingOptions true false 1000%float false false 3)
            test_yay no_args (Machine 0 [] empty_world)) =
     Returns (VStr "yay").
Proof.
  apply (@timing_three_times sample_runtime
           (TimingOptions true false 1000%float false false 3)
           test_yay no_args 0 [] empty_world
           (VStr "yay") (VStr "yay") (VStr "yay"));
    reflexivity.
Defined.

(** With [return_time] the same three runs give the scaled duration and
    not the target's value: three sleeps of 0.125 s, in milliseconds. *)
Example timing_three_times_return_time :
  fst (@decor_timing sample_runtime module_globals
         (TimingOptions true true 1000%float false false 3)
         test_yay no_args (Machine 0 [] empty_world)) =
  Returns (VFloat 375%float).
Proof. vm_compute. reflexivity. Qed.

(** Without any run, [timing] has no value to return: the local [ret] was
    never bound. *)
Lemma timing_zero_times_unbound_ret `{PyRuntime} (fac : float)
    (sb sa : bool) (func : pyfunction) (a : args) (m : machine Z) :
  fst (decor_timing module_globals (TimingOptions true false fac sb sa 0)
         func a m) =
    Raises (Exn UnboundLocalError
              "local variable 'ret' referenced before assignment" [])
  /\ m_calls (snd (decor_timing module_globals
                     (TimingOptions true false fac sb sa 0) func a m)) =
     m_calls m.
Proof.
  destruct m as [tr calls w].
  destruct (timing_wrap_func_after_loop func a
              (TimingOptions true false fac sb sa 0) tr calls w None
              (Machine tr calls w) eq_refl) as (Hres & Hcalls & _).
  split; [exact Hres | exact Hcalls].
Qed.

(** C5 fails on the code.  Whatever the options, the wrapper that a
    [Timing] object with [activate] true builds raises [NameError] on every
    call whose target invocations all return: after the runs it evaluates
    the free name [times], which the module never binds. *)
Theorem Timing_wrapper_raises_NameError `{PyRuntime} (self : Timing_object)
    (func : pyfunction) (a : args) (calls : list args) (w : world) :
  self_activate self = true ->
  (forall i, (i < Z.to_nat (self_times self))%nat ->
     exists v, outcome_at func a i w = Returns v) ->
  fst (Timing_call module_globals func self a (Machine self calls w)) =
    Raises (Exn NameError "name 'times' is not defined" [])
  /\ invocations (Machine self calls w)
       (snd (Timing_call module_globals func self a (Machine self calls w)))
     = Z.of_nat (Z.to_nat (self_times self)).
Proof.
  intros Hact Hok. unfold Timing_call. rewrite Hact.
  pose proof (repeat_call_returns func a (Z.to_nat (self_times self))
                (Machine self calls w) None Hok) as Hloop.
  destruct (Timing_wrap_func_after_loop func a self calls w _ _ Hloop)
    as (Hres & Hcalls).
  split; [exact Hres|].
  unfold invocations. rewrite Hcalls. cbn [push_calls m_calls].
  rewrite length_app, repeat_length. lia.
Qed.

(** C5 at [Timing()] with all defaults, on the docstring's target. *)
Lemma Timing_wrapper_raises_NameError_witness :
  fst (@Timing_call sample_runtime module_globals test_yay
         (Timing_init timing_defaults) no_args
         (Machine (Timing_init timing_defaults) [] empty_world)) =
    Raises (Exn NameError "name 'times' is not defined" [])
  /\ invocations (Machine (Timing_init timing_defaults) [] empty_world)
       (snd (@Timing_call sample_runtime module_globals test_yay
               (Timing_init timing_defaults) no_args
               (Machine (Timing_init timing_defaults) [] empty_world)))
     = 1.
Proof.
  apply (@Timing_wrapper_raises_NameError sample_runtime
           (Timing_init timing_defaults) test_yay no_args [] empty_world).
  - reflexivity.
  - intros [|i] Hi; [exists (VStr "yay"); reflexivity | simpl in Hi; lia].
Defined.

(** C9.  With [activate] false, both [timing] and a [Timing] object give
    back the target itself: the decorated callable is the plain call of the
    target, so on every input it yields the target's outcome and world and
    logs exactly one invocation. *)
Theorem timing_inactive_is_target `{PyRuntime} (G : gmap string value)
    (opts : timing_options) (func : pyfunction) :
  activate opts = false ->
  decor_timing G opts func = call func
  /\ Timing_call G func (Timing_init opts) = call func
  /\ (forall (a : args) (m : machine Z),
        decor_timing G opts func a m =
        (fst (fn_body func a (m_world m)),
         Machine (m_cell m) (a :: m_calls m)
           (snd (fn_body func a (m_world m)))))
  /\ (forall (a : args) (m : machine Timing_object),
        Timing_call G func (Timing_init opts) a m =
        (fst (fn_body func a (m_world m)),
         Machine (m_cell m) (a :: m_calls m)
           (snd (fn_body func a (m_world m))))).
Proof.
  intros Hact.
  assert (H1 : decor_timing G opts func = call func).
  { unfold decor_timing. now rewrite Hact. }
  assert (H2 : Timing_call G func (Timing_init opts) = call func).
  { unfold Timing_call, Timing_init. cbn [self_activate]. now rewrite Hact. }
  split; [exact H1|]. split; [exact H2|]. split.
  - intros a m. rewrite H1. apply call_eq.
  - intros a m. rewrite H2. apply call_eq.
Qed.

(** C9 with every other option at its default. *)
Lemma timing_inactive_is_target_witness :
  @decor_timing sample_runtime module_globals
    (TimingOptions false false 1000%float false false 1) test_yay =
    call test_yay
  /\ @Timing_call sample_runtime module_globals test_yay
       (Timing_init (TimingOptions false false 1000%float false false 1)) =
     call test_yay.
Proof.
  destruct (@timing_inactive_is_target sample_runtime module_globals
              (TimingOptions false false 1000%float false false 1) test_yay
              eq_refl) as (H1 & H2 & _).
  split; [exact H1 | exact H2].
Defined.

(** ** reduce_query *)

(** C10.  With [always_query] set, a call of the wrapper is the plain call
    of the target: the target is invoked exactly once and its outcome is
    given back, the cached [df] and [df_date] keep their values, and the
    world is the one the target leaves, so the wrapper itself neither reads
    nor writes the file. *)
Theorem reduce_query_always_query `{PyRuntime} (G : gmap string value)
    (file_path : option string) (func : pyfunction) (a : args)
    (m : machine query_cache) :
  reduce_query_wrapper G file_path true func a m =
    (fst (fn_body func a (m_world m)),
     Machine (m_cell m) (a :: m_calls m) (snd (fn_body func a (m_world m))))
  /\ invocations m (snd (reduce_query_wrapper G file_path true func a m)) = 1
  /\ m_cell (snd (reduce_query_wrapper G file_path true func a m)) = m_cell m
  /\ m_world (snd (reduce_query_wrapper G file_path true func a m)) =
     snd (fn_body func a (m_world m)).
Proof.
  assert (Heq : forall m0 : machine query_cache,
            reduce_query_wrapper G file_path true func a m0 =
            (fst (fn_body func a (m_world m0)),
             Machine (m_cell m0) (a :: m_calls m0)
               (snd (fn_body func a (m_world m0))))).
  { intros m0. unfold reduce_query_wrapper. apply call_eq. }
  split; [apply Heq|]. rewrite !Heq. cbn [snd fst m_cell m_world].
  split; [|split].
  - unfold invocations. cbn [m_calls length]. lia.
  - reflexivity.
  - reflexivity.
Qed.

Section ReduceQueryFacts.
Context `{PyRuntime}.
Variable p : string.
Variable func : pyfunction.
Variable a : args.

Lemma load_os_path (m : machine query_cache) :
  load_module_attr module_globals "os" "os" "path" m = (Returns tt, m).
Proof. reflexivity. Qed.

Lemma load_datetime_unbound (m : machine query_cache) :
  load_module_attr module_globals "datetime" "datetime" "datetime" m =
  (Raises (Exn NameError "name 'datetime' is not defined" []), m).
Proof. reflexivity. Qed.

(** In the namespace of the module as written, the first use of
    [datetime] ends the call, whether the file exists or not. *)
Lemma reduce_query_wrapper_module_globals (m : machine query_cache) :
  reduce_query_wrapper module_globals (Some p) false func a m =
  (Raises (Exn NameError "name 'datetime' is not defined" []), m).
Proof.
  unfold reduce_query_wrapper.
  unfold bind at 1, try_except, bind at 1, getmtime.
  unfold bind at 1. rewrite load_os_path.
  unfold bind at 1, get_world at 1.
  destruct (w_files (m_world m) !! p) as [f|].
  - unfold ret at 1, bind at 1, fromtimestamp_date, bind at 1.
    rewrite load_datetime_unbound. reflexivity.
  - unfold raise at 1.
    change (exc_matches (ExceptClass FileNotFoundError)
              (Exn FileNotFoundError
                 ("[Errno 2] No such file or directory: '" +:+ p +:+ "'")
                 [])) with true.
    cbv iota. unfold ret at 1.
    unfold bind at 1, now_date, bind at 1.
    rewrite load_datetime_unbound. reflexivity.
Qed.
End ReduceQueryFacts.

(** C2 fails on the code.  The module never imports [datetime] (nor
    pandas), so every call with [always_query] unset and a file path raises
    [NameError] before any date is compared: the target is not invoked and
    neither the cache nor the world changes, on the first call as on any
    later one. *)
Theorem reduce_query_raises_NameError `{PyRuntime} (p : string)
    (func : pyfunction) (argv : nat -> args) (m : machine query_cache)
    (k : nat) :
  result_of_call (reduce_query_wrapper module_globals (Some p) false func)
    argv k m =
    Raises (Exn NameError "name 'datetime' is not defined" [])
  /\ after_calls (reduce_query_wrapper module_globals (Some p) false func)
       argv k m = m.
Proof.
  assert (Hsame : forall j,
            after_calls (reduce_query_wrapper module_globals (Some p) false
                           func) argv j m = m).
  { induction j as [|j IH]; [reflexivity|].
    cbn [after_calls]. rewrite IH.
    now rewrite reduce_query_wrapper_module_globals. }
  split; [|apply Hsame].
  unfold result_of_call. rewrite Hsame.
  now rewrite reduce_query_wrapper_module_globals.
Qed.

(** C2 at a first call with no cache file: nothing is invoked. *)
Example reduce_query_first_call_fails :
  @reduce_query_wrapper sample_runtime module_globals (Some "cache.csv")
    false query_sth no_args (Machine (QueryCache VNone None) [] empty_world)
  = (Raises (Exn NameError "name 'datetime' is not defined" []),
     Machine (QueryCache VNone None) [] empty_world).
Proof. vm_compute. reflexivity. Qed.

(** ** The cache of reduce_query once its two imports are in place *)

Lemma bind_returns {S A B} (c : M S A) (k : A -> M S B) (m m' : machine S)
    (x : A) :
  c m = (Returns x, m') -> bind c k m = k x m'.
Proof. intros Hc. unfold bind. now rewrite Hc. Qed.

Lemma bind_raises {S A B} (c : M S A) (k : A -> M S B) (m m' : machine S)
    (e : exn) :
  c m = (Raises e, m') -> bind c k m = (Raises e, m').
Proof. intros Hc. unfold bind. now rewrite Hc. Qed.

Section CacheFacts.
Context `{PyRuntime}.
Variable p : string.
Variable func : pyfunction.
Variable a : args.

Lemma now_date_with_imports (m : machine query_cache) :
  now_date with_imports m = (Returns (today (m_world m)), m).
Proof. reflexivity. Qed.

(** The [try] block that dates the file. *)
Lemma file_date_with_imports (m : machine query_cache) :
  try_except
    (t <~ getmtime with_imports (Some p) ;;
     d <~ fromtimestamp_date with_imports t ;;
     ret (Some d))
    (ExceptClass FileNotFoundError) (fun _ => ret None) m =
  (Returns (file_day p (m_world m)), m).
Proof.
  unfold try_except, file_day.
  assert (Hget : getmtime with_imports (Some p) m =
                 match w_files (m_world m) !! p with
                 | Some f => (Returns (f_mtime f), m)
                 | None =>
                     (Raises (Exn FileNotFoundError
                                ("[Errno 2] No such file or directory: '"
                                   +:+ p +:+ "'") []), m)
                 end).
  { unfold getmtime.
    rewrite (bind_returns _ _ m m tt) by reflexivity.
    unfold bind, get_world.
    now destruct (w_files (m_world m) !! p). }
  destruct (w_files (m_world m) !! p) as [f|].
  - rewrite (bind_returns _ _ m m (f_mtime f)) by exact Hget.
    reflexivity.
  - rewrite (bind_raises _ _ m m _ Hget). reflexivity.
Qed.

Lemma read_csv_with_imports (m : machine query_cache) (f : file) :
  w_files (m_world m) !! p = Some f ->
  read_csv with_imports (Some p) m = (csv_load (f_text f), m).
Proof.
  intros Hf. unfold read_csv.
  rewrite (bind_returns _ _ m m tt) by reflexivity.
  unfold bind, get_world. now rewrite Hf.
Qed.

(** The wrapper after its two tests, as a function of their results. *)
Lemma reduce_query_wrapper_tests (m : machine query_cache) :
  reduce_query_wrapper with_imports (Some p) false func a m =
  ((if bool_decide (df_date (m_cell m) = Some (today (m_world m))) then
      if negb (bool_decide (file_day p (m_world m) =
                            Some (today (m_world m))))
      then to_csv (Some p) (df (m_cell m)) else ret tt
    else if bool_decide (file_day p (m_world m) =
                         Some (today (m_world m))) then
      d <~ read_csv with_imports (Some p) ;;
      set_df d ;;;
      set_df_date (file_day p (m_world m))
    else
      d <~ call func a ;;
      set_df d ;;;
      to_csv (Some p) d ;;;
      day <~ now_date with_imports ;;
      set_df_date (Some day)) ;;;
   c <~ get_cell ;;
   ret (df c)) m.
Proof.
  unfold reduce_query_wrapper.
  rewrite (bind_returns _ _ m m _ (file_date_with_imports m)).
  rewrite (bind_returns _ _ m m _ (now_date_with_imports m)).
  rewrite (bind_returns _ _ m m (m_cell m)) by reflexivity.
  rewrite (bind_returns _ _ m m _ (now_date_with_imports m)).
  reflexivity.
Qed.

Variable c : query_cache.
Variable calls : list args.
Variable w : world.

(** Step 3 of the algorithm: memory is fresh, so is the file. *)
Lemma reduce_query_memory_fresh :
  df_date c = Some (today w) ->
  file_day p w = Some (today w) ->
  reduce_query_wrapper with_imports (Some p) false func a
    (Machine c calls w) = (Returns (df c), Machine c calls w).
Proof.
  intros Hmem Hfile. rewrite reduce_query_wrapper_tests. cbn [m_cell m_world].
  rewrite (bool_decide_eq_true_2 _ Hmem), (bool_decide_eq_true_2 _ Hfile).
  reflexivity.
Qed.

(** Step 3, the file being stale: the cached frame is written out. *)
Lemma reduce_query_memory_fresh_file_stale (rows : frame) :
  df_date c = Some (today w) ->
  file_day p w <> Some (today w) ->
  df c = VFrame rows ->
  reduce_query_wrapper with_imports (Some p) false func a
    (Machine c calls w) =
  (Returns (VFrame rows), Machine c calls (written p rows w)).
Proof.
  intros Hmem Hfile Hdf. rewrite reduce_query_wrapper_tests.
  cbn [m_cell m_world].
  rewrite (bool_decide_eq_true_2 _ Hmem), (bool_decide_eq_false_2 _ Hfile).
  cbn [negb]. rewrite Hdf.
  cbv beta iota delta
    [bind to_csv get_world set_world get_cell ret m_world m_cell m_calls].
  now rewrite Hdf.
Qed.

(** Step 4: the file is fresh and memory is not. *)
Lemma reduce_query_file_fresh (f : file) (d : value) :
  df_date c <> Some (today w) ->
  file_day p w = Some (today w) ->
  w_files w !! p = Some f ->
  csv_load (f_text f) = Returns d ->
  reduce_query_wrapper with_imports (Some p) false func a
    (Machine c calls w) =
  (Returns d, Machine (QueryCache d (Some (today w))) calls w).
Proof.
  intros Hmem Hfile Hf Hload. rewrite reduce_query_wrapper_tests.
  cbn [m_cell m_world].
  rewrite (bool_decide_eq_false_2 _ Hmem), (bool_decide_eq_true_2 _ Hfile).
  unfold bind at 1, bind at 1.
  rewrite (read_csv_with_imports (Machine c calls w) f Hf), Hload.
  rewrite Hfile. reflexivity.
Qed.

(** Step 5: both tiers are stale, the target is queried. *)
Lemma reduce_query_both_stale (rows : frame) (w1 : world) :
  df_date c <> Some (today w) ->
  file_day p w <> Some (today w) ->
  fn_body func a w = (Returns (VFrame rows), w1) ->
  reduce_query_wrapper with_imports (Some p) false func a
    (Machine c calls w) =
  (Returns (VFrame rows),
   Machine (QueryCache (VFrame rows) (Some (today w1))) (a :: calls)
     (written p rows w1)).
Proof.
  intros Hmem Hfile Hbody. rewrite reduce_query_wrapper_tests.
  cbn [m_cell m_world].
  rewrite (bool_decide_eq_false_2 _ Hmem), (bool_decide_eq_false_2 _ Hfile).
  unfold bind at 1, bind at 1. rewrite call_eq. cbn [m_world].
  rewrite Hbody. reflexivity.
Qed.

(** The target is invoked exactly when both tiers are stale. *)
Lemma reduce_query_invokes_iff_stale :
  m_calls (snd (reduce_query_wrapper with_imports (Some p) false func a
                  (Machine c calls w))) =
  if bool_decide (df_date c = Some (today w))
     || bool_decide (file_day p w = Some (today w))
  then calls else a :: calls.
Proof.
  rewrite reduce_query_wrapper_tests. cbn [m_cell m_world].
  destruct (bool_decide (df_date c = Some (today w))) eqn:Hmem;
    destruct (bool_decide (file_day p w = Some (today w))) eqn:Hfile;
    cbn [negb orb].
  - reflexivity.
  - destruct (df c); reflexivity.
  - apply bool_decide_eq_true_1 in Hfile. unfold file_day in Hfile.
    destruct (w_files w !! p) as [f|] eqn:Hf; [|discriminate].
    unfold bind at 1, bind at 1.
    rewrite (read_csv_with_imports (Machine c calls w) f Hf).
    now destruct (csv_load (f_text f)).
  - unfold bind at 1, bind at 1. rewrite call_eq. cbn [m_world].
    destruct (fn_body func a w) as [[v|e] w1]; cbn [fst snd];
      [|reflexivity].
    destruct v; reflexivity.
Qed.
End CacheFacts.

(** With the imports in place the cache does what its docstring says.  From
    a state where both tiers are stale, a first call queries the target
    once and stamps the file; a second call in the world it leaves finds
    memory and file fresh and answers from memory, so the two calls invoke
    the target once in all. *)
Lemma reduce_query_same_day_twice `{PyRuntime} (p : string)
    (func : pyfunction) (a : args) (c : query_cache) (calls : list args)
    (w w1 : world) (rows : frame) :
  df_date c <> Some (today w) ->
  file_day p w <> Some (today w) ->
  fn_body func a w = (Returns (VFrame rows), w1) ->
  let first := reduce_query_wrapper with_imports (Some p) false func a
                 (Machine c calls w) in
  let second := reduce_query_wrapper with_imports (Some p) false func a
                  (snd first) in
  fst first = Returns (VFrame rows)
  /\ fst second = Returns (VFrame rows)
  /\ m_calls (snd second) = a :: calls
  /\ w_files (m_world (snd second)) !! p =
     Some (File (csv_dump rows) (w_time w1)).
Proof.
  intros Hmem Hfile Hbody first second. subst second first.
  rewrite (reduce_query_both_stale p func a c calls w rows w1 Hmem Hfile Hbody).
  cbn [fst snd].
  rewrite reduce_query_memory_fresh.
  - cbn [fst snd m_calls m_world]. repeat split.
    unfold written. cbn [w_files]. apply lookup_insert_eq.
  - reflexivity.
  - unfold file_day, written. cbn [w_files].
    now rewrite lookup_insert_eq.
Qed.

(** The same on the sample query, and the day after: the file on disk is
    then a day old, both tiers are stale, and the target is queried once
    more. *)
Example reduce_query_sample_days :
  let wrapper := @reduce_query_wrapper sample_runtime with_imports
                   (Some "cache.csv") false query_sth no_args in
  let yesterday := World (-1)%float ∅ [] [] ∅ in
  let m1 := snd (wrapper (Machine (QueryCache VNone None) [] yesterday)) in
  let m2 := snd (wrapper m1) in
  let m3 := snd (wrapper
                   (Machine (m_cell m2) (m_calls m2)
                      (advance_clock 1%float (m_world m2)))) in
  length (m_calls m1) = 1%nat
  /\ length (m_calls m2) = 1%nat
  /\ length (m_calls m3) = 2%nat
  /\ f_mtime <$> w_files (m_world m3) !! "cache.csv" = Some 0%float.
Proof. vm_compute. repeat split. Qed.

(** * Further properties of the module *)

(** ** retry, limit_run and pass_except beyond their main cases *)

Lemma load_function_machine {S} (G : gmap string value) (name : string)
    (m : machine S) :
  snd (load_function G name m) = m.
Proof.
  unfold load_function, bind, load_global.
  destruct (G !! name) as [v|]; [|reflexivity].
  unfold ret. destruct v; try reflexivity.
  now destruct (String.eqb name0 name).
Qed.

Lemma retry_loop_calls (exception : except_spec) (func : pyfunction)
    (a : args) (k : nat) : forall m : machine unit,
  exists j, (j <= k)%nat /\ (1 <= k -> 1 <= j)%nat
    /\ m_calls (snd (retry_loop exception func a k m)) =
       repeat a j ++ m_calls m.
Proof.
  induction k as [|k IH]; intros m.
  - exists 0%nat. repeat split; [lia|].
    intros Hk; lia.
  - simpl retry_loop. unfold bind at 1, try_except, bind at 1, ret.
    rewrite call_eq.
    destruct (fst (fn_body func a (m_world m))) as [v|e].
    + exists 1%nat. repeat split; lia.
    + destruct (exc_matches exception e).
      * destruct (IH (Machine (m_cell m) (a :: m_calls m)
                        (snd (fn_body func a (m_world m))))) as (j & Hj & _ & Hc).
        exists (Datatypes.S j). split; [lia|]. split; [lia|].
        rewrite Hc. cbn [m_calls]. now rewrite repeat_snoc_cons.
      * exists 1%nat. repeat split; lia.
Qed.

(** X1.  Whatever the target does, one call of the [retry n] wrapper
    invokes it at most [n] times (not at all for [n <= 0]) and at least
    once when [n >= 1], every time with the caller's arguments. *)
Theorem retry_invocation_bounds (G : gmap string value) (n : Z)
    (exception : except_spec) (func : pyfunction) (a : args)
    (m : machine unit) :
  exists j : nat,
    m_calls (snd (retry_wrapper G n exception func a m)) =
      repeat a j ++ m_calls m
    /\ Z.of_nat j <= Z.max n 0
    /\ (1 <= n -> 1 <= Z.of_nat j)
    /\ invocations m (snd (retry_wrapper G n exception func a m)) =
       Z.of_nat j.
Proof.
  destruct (retry_loop_calls exception func a (Z.to_nat n) m)
    as (j & Hj & Hj1 & Hc).
  exists j.
  assert (Hcalls : m_calls (snd (retry_wrapper G n exception func a m)) =
                   repeat a j ++ m_calls m).
  { unfold retry_wrapper, bind at 1.
    destruct (retry_loop exception func a (Z.to_nat n) m) as [[[v|]|e] m1];
      cbn [snd] in *; try exact Hc.
    unfold bind.
    pose proof (load_function_machine G "_repr_func" m1) as Hm.
    destruct (load_function G "_repr_func" m1) as [[[]|e] m2];
      cbn [snd] in *; subst m2; exact Hc. }
  split; [exact Hcalls|]. split; [lia|]. split; [lia|].
  unfold invocations. rewrite Hcalls, length_app, repeat_length. lia.
Qed.

(** X2.  A [retry] bound [n <= 0] leaves no attempt: the wrapper raises its
    [ValueError] at once and the target is never invoked. *)
Theorem retry_non_positive_bound (n : Z) (exception : except_spec)
    (func : pyfunction) (a : args) (m : machine unit) :
  n <= 0 ->
  retry_wrapper module_globals n exception func a m =
  (Raises (Exn ValueError
             (_repr_func func +:+ " exceeds " +:+ pretty n +:+ " retries")
             []), m).
Proof.
  intros Hn. unfold retry_wrapper.
  replace (Z.to_nat n) with 0%nat by lia.
  destruct m as [[] calls w]. reflexivity.
Qed.

Lemma retry_non_positive_bound_witness :
  retry_wrapper module_globals 0 (ExceptClass Exception) do_sth_run no_args
    (Machine tt [] empty_world) =
  (Raises (Exn ValueError "do_sth() in <stdin>, line 2 exceeds 0 retries" []),
   Machine tt [] empty_world).
Proof.
  apply (retry_non_positive_bound 0 (ExceptClass Exception) do_sth_run
           no_args (Machine tt [] empty_world)).
  lia.
Defined.

(** X3.  [limit_run] without a bound ([n] is [None]) never refuses: each
    outer call gives back the outcome of one invocation of the target, so
    [k] calls make [k] invocations, and the remaining count stays as it
    is. *)
Theorem limit_run_unbounded (G : gmap string value) (func : pyfunction)
    (argv : nat -> args) (m : machine (option Z)) (k : nat) :
  result_of_call (limit_run_wrapper G None func) argv k m =
    fst (fn_body func (argv k)
           (m_world (after_calls (limit_run_wrapper G None func) argv k m)))
  /\ invocations m (after_calls (limit_run_wrapper G None func) argv k m) =
     Z.of_nat k
  /\ m_cell (after_calls (limit_run_wrapper G None func) argv k m) =
     m_cell m.
Proof.
  split.
  - unfold result_of_call, limit_run_wrapper. now rewrite call_eq.
  - induction k as [|k [IHc IHs]].
    + unfold invocations. cbn [after_calls]. split; [lia|reflexivity].
    + cbn [after_calls]. unfold limit_run_wrapper at 1 3.
      rewrite call_eq. cbn [snd m_cell].
      split; [|exact IHs].
      unfold invocations in *. cbn [m_calls length]. lia.
Qed.

(** X4.  After [k] outer calls of a [limit_run n] wrapper the target has
    been invoked [min k n] times in all ([0] times for a negative [n]),
    whether those invocations returned or raised. *)
Theorem limit_run_total_invocations (n : Z) (func : pyfunction)
    (argv : nat -> args) (calls : list args) (w : world) (k : nat) :
  invocations (Machine (Some n) calls w) (quota_after n func argv calls w k)
  = Z.min (Z.of_nat k) (Z.max n 0).
Proof.
  induction k as [|k IH].
  - unfold invocations, quota_after. cbn [after_calls m_calls]. lia.
  - change (quota_after n func argv calls w (Datatypes.S k))
      with (snd (limit_run_wrapper module_globals (Some n) func (argv k)
                   (quota_after n func argv calls w k))).
    destruct (Z_lt_le_dec (Z.of_nat k) n) as [Hlt|Hge].
    + rewrite quota_after_allowed by exact Hlt.
      unfold invocations in *. cbn [snd m_calls length] in *. lia.
    + rewrite quota_after_refused by exact Hge.
      cbn [snd]. lia.
Qed.

(** X5.  [pass_except] never lets an instance of [Exception] out: whatever
    the target does, the wrapper either returns or raises something that
    is not an [Exception]; and when the target returns, the wrapper returns
    the same value after that one invocation, printing nothing. *)
Theorem pass_except_outcomes (print_exception : bool) (func : pyfunction)
    (a : args) (m : machine unit) :
  match fst (pass_except_wrapper print_exception func a m) with
  | Returns _ => True
  | Raises e => isinstance e Exception = false
  end
  /\ (forall v, fst (fn_body func a (m_world m)) = Returns v ->
        pass_except_wrapper print_exception func a m =
        (Returns v,
         Machine (m_cell m) (a :: m_calls m)
           (snd (fn_body func a (m_world m)))))
  /\ invocations m (snd (pass_except_wrapper print_exception func a m)) = 1.
Proof.
  unfold pass_except_wrapper, try_except. rewrite call_eq.
  destruct (fst (fn_body func a (m_world m))) as [v|e] eqn:Hr.
  - split; [exact I|]. split.
    + intros v' Hv. now inversion Hv.
    + unfold invocations. cbn [snd m_calls length]. lia.
  - cbn [exc_matches].
    destruct (isinstance e Exception) eqn:Hi.
    + split; [|split].
      * destruct print_exception; exact I.
      * intros v Hv. discriminate Hv.
      * unfold invocations.
        destruct print_exception; cbn; lia.
    + split; [exact Hi|]. split.
      * intros v Hv. discriminate Hv.
      * unfold invocations. cbn [snd m_calls length]. lia.
Qed.

Lemma pass_except_outcomes_witness :
  pass_except_wrapper false do_sth_run no_args (Machine tt [] empty_world) =
  (Returns VNone,
   Machine tt [no_args]
     (snd (fn_body do_sth_run no_args empty_world))).
Proof.
  apply (proj1 (proj2 (pass_except_outcomes false do_sth_run no_args
                         (Machine tt [] empty_world))) VNone).
  reflexivity.
Defined.

(** ** timing: the whole effect of a call *)

Section TimingCalls.
Context `{PyRuntime}.
Variable opts : timing_options.
Variable func : pyfunction.

(** The repetition loop stops at the first invocation that raises. *)
Lemma repeat_call_raises {S} (a : args) (j : nat) :
  forall (k : nat) (m : machine S) (ret_var : option value) (e : exn),
  (j < k)%nat ->
  (forall i, (i < j)%nat ->
     exists v, outcome_at func a i (m_world m) = Returns v) ->
  outcome_at func a j (m_world m) = Raises e ->
  repeat_call func a k ret_var m =
  (Raises e,
   push_calls a (Datatypes.S j) m
     (world_after func a (Datatypes.S j) (m_world m))).
Proof.
  induction j as [|j IH]; intros k m ret_var e Hjk Hok Hraise.
  - destruct k as [|k]; [lia|].
    unfold outcome_at in Hraise; simpl in Hraise.
    simpl repeat_call. unfold bind. rewrite call_eq, Hraise.
    reflexivity.
  - destruct k as [|k]; [lia|].
    destruct (Hok O ltac:(lia)) as [v0 Hv0].
    unfold outcome_at in Hv0; simpl in Hv0.
    simpl repeat_call. unfold bind at 1. rewrite call_eq, Hv0.
    rewrite (IH k _ _ e).
    + cbn [m_world]. now rewrite push_calls_step.
    + lia.
    + intros i Hi. cbn [m_world].
      destruct (Hok (Datatypes.S i) ltac:(lia)) as [v Hv].
      exists v. exact Hv.
    + exact Hraise.
Qed.

(** One call of [wrap_func] whose runs all return. *)
Lemma timing_wrap_func_returns (a : args) (time_run : Z)
    (calls : list args) (w : world) :
  (forall i, (i < Z.to_nat (times opts))%nat ->
     exists v, outcome_at func a i w = Returns v) ->
  timing_wrap_func module_globals opts func a (Machine time_run calls w) =
  ((if return_time opts then
      Returns (VFloat (PrimFloat.mul
                         (PrimFloat.sub
                            (w_time (world_after func a
                                       (Z.to_nat (times opts)) w))
                            (w_time w))
                         (factor opts)))
    else match last_ret func a (Z.to_nat (times opts)) w None with
         | Some v => Returns v
         | None =>
             Raises (Exn UnboundLocalError
                       "local variable 'ret' referenced before assignment"
                       [])
         end),
   Machine (time_run + splits opts)
     (repeat a (Z.to_nat (times opts)) ++ calls)
     (World (w_time (world_after func a (Z.to_nat (times opts)) w))
        (w_files (world_after func a (Z.to_nat (times opts)) w))
        (w_stdout (world_after func a (Z.to_nat (times opts)) w)
           ++ timing_report opts (fn_name func) time_run
                (PrimFloat.mul
                   (PrimFloat.sub
                      (w_time (world_after func a
                                 (Z.to_nat (times opts)) w))
                      (w_time w))
                   (factor opts)))
        (w_stderr (world_after func a (Z.to_nat (times opts)) w))
        (w_globals (world_after func a (Z.to_nat (times opts)) w)))).
Proof.
  intros Hok.
  pose proof (repeat_call_returns func a (Z.to_nat (times opts))
                (Machine time_run calls w) None Hok) as Hloop.
  cbn [m_world] in Hloop. unfold push_calls in Hloop.
  cbn [m_cell m_calls] in Hloop.
  unfold timing_wrap_func.
  unfold bind at 1. rewrite time_time_module_globals.
  unfold bind at 1. rewrite Hloop.
  unfold bind at 1. rewrite time_time_module_globals.
  cbn [m_world].
  generalize (world_after func a (Z.to_nat (times opts)) w) as wk.
  generalize (last_ret func a (Z.to_nat (times opts)) w None) as rv.
  intros rv wk.
  unfold timing_report, splits.
  destruct (split_before opts), (split_after opts), (return_time opts), rv;
    cbn; rewrite <- ?app_assoc; cbn;
    repeat (f_equal; try lia).
Qed.
End TimingCalls.

(** X6.  One call of the [timing] wrapper whose [times] runs all return
    leaves the world the runs leave, plus its report on standard output:
    the separator numbered [time_run] if [split_before], one [Runtime of]
    line, the separator with the next number if [split_after]; the counter
    grows by the number of separators printed, and nothing else changes. *)
Theorem timing_call_effect `{PyRuntime} (opts : timing_options)
    (func : pyfunction) (a : args) (time_run : Z) (calls : list args)
    (w : world) :
  activate opts = true ->
  (forall i, (i < Z.to_nat (times opts))%nat ->
     exists v, outcome_at func a i w = Returns v) ->
  snd (decor_timing module_globals opts func a (Machine time_run calls w)) =
  Machine (time_run + splits opts)
    (repeat a (Z.to_nat (times opts)) ++ calls)
    (World (w_time (world_after func a (Z.to_nat (times opts)) w))
       (w_files (world_after func a (Z.to_nat (times opts)) w))
       (w_stdout (world_after func a (Z.to_nat (times opts)) w)
          ++ timing_report opts (fn_name func) time_run
               (PrimFloat.mul
                  (PrimFloat.sub
                     (w_time (world_after func a (Z.to_nat (times opts)) w))
                     (w_time w))
                  (factor opts)))
       (w_stderr (world_after func a (Z.to_nat (times opts)) w))
       (w_globals (world_after func a (Z.to_nat (times opts)) w))).
Proof.
  intros Hact Hok. unfold decor_timing. rewrite Hact.
  now rewrite (timing_wrap_func_returns opts func a time_run calls w Hok).
Qed.

(** X6 on the docstring's second example: [split_after] alone, counter at
    0, so the report is the runtime line followed by separator 0. *)
Lemma timing_call_effect_witness :
  snd (@decor_timing sample_runtime module_globals
         (TimingOptions true false 1000%float false true 1) test_yay
         no_args (Machine 0 [] empty_world)) =
  Machine 1 [no_args]
    (World 0.125%float ∅
       ["Runtime of test                             0.00000 ms";
        "######################### 0 ##########################"]
       [] ∅).
Proof.
  apply (@timing_call_effect sample_runtime
           (TimingOptions true false 1000%float false true 1) test_yay
           no_args 0 [] empty_world eq_refl).
  intros [|i] Hi; [exists (VStr "yay"); reflexivity | simpl in Hi; lia].
Defined.

(** X7.  The separator counter of a [timing] wrapper carries over from one
    outer call to the next: with a target that never raises, after [k]
    calls it stands at its initial value plus [k] times the number of
    separators per call, so the separators of successive calls are numbered
    consecutively. *)
Theorem timing_counter_after_calls `{PyRuntime} (opts : timing_options)
    (func : pyfunction) (argv : nat -> args) (time_run : Z)
    (calls : list args) (w : world) (k : nat) :
  activate opts = true ->
  (forall a w0, exists v, fst (fn_body func a w0) = Returns v) ->
  m_cell (after_calls (decor_timing module_globals opts func) argv k
            (Machine time_run calls w)) =
  time_run + Z.of_nat k * splits opts.
Proof.
  intros Hact Hnever. induction k as [|k IH].
  - cbn [after_calls m_cell]. lia.
  - cbn [after_calls].
    destruct (after_calls (decor_timing module_globals opts func) argv k
                (Machine time_run calls w)) as [c cs w0].
    cbn [m_cell] in IH. subst c.
    unfold decor_timing at 1. rewrite Hact.
    rewrite timing_wrap_func_returns.
    + cbn [snd m_cell]. lia.
    + intros i _. unfold outcome_at. apply Hnever.
Qed.

Lemma timing_counter_after_calls_witness :
  m_cell (after_calls
            (@decor_timing sample_runtime module_globals
               (TimingOptions true false 1000%float true true 1) test_yay)
            (fun _ => no_args) 3 (Machine 0 [] empty_world)) =
  0 + 3 * splits (TimingOptions true false 1000%float true true 1).
Proof.
  apply (@timing_counter_after_calls sample_runtime
           (TimingOptions true false 1000%float true true 1) test_yay
           (fun _ => no_args) 0 [] empty_world 3 eq_refl).
  intros a w0. exists (VStr "yay"). reflexivity.
Defined.

(** X8.  [timing] has no handler: when run number [j] of the target raises
    (the earlier ones having returned), the wrapper raises that exception
    after those [j + 1] invocations, prints no report and leaves its
    counter as it was. *)
Theorem timing_target_raises `{PyRuntime} (opts : timing_options)
    (func : pyfunction) (a : args) (time_run : Z) (calls : list args)
    (w : world) (j : nat) (e : exn) :
  activate opts = true ->
  Z.of_nat j < times opts ->
  (forall i, (i < j)%nat -> exists v, outcome_at func a i w = Returns v) ->
  outcome_at func a j w = Raises e ->
  decor_timing module_globals opts func a (Machine time_run calls w) =
  (Raises e,
   Machine time_run (repeat a (Datatypes.S j) ++ calls)
     (world_after func a (Datatypes.S j) w)).
Proof.
  intros Hact Hj Hok Hraise. unfold decor_timing. rewrite Hact.
  unfold timing_wrap_func.
  unfold bind at 1. rewrite time_time_module_globals.
  unfold bind at 1.
  rewrite (repeat_call_raises func a j (Z.to_nat (times opts))
             (Machine time_run calls w) None e); [reflexivity|lia| |];
    cbn [m_world]; assumption.
Qed.

Lemma timing_target_raises_witness :
  @decor_timing sample_runtime module_globals
    (TimingOptions true false 1000%float true true 2) do_sth_assert no_args
    (Machine 0 [] empty_world) =
  (Raises (Exn AssertionError "" ["File <stdin>, line 2"]),
   Machine 0 [no_args] empty_world).
Proof.
  apply (@timing_target_raises sample_runtime
           (TimingOptions true false 1000%float true true 2) do_sth_assert
           no_args 0 [] empty_world 0
           (Exn AssertionError "" ["File <stdin>, line 2"]) eq_refl).
  - cbn; lia.
  - intros i Hi; lia.
  - reflexivity.
Defined.

(** X9.  With [times <= 0] the [timing] wrapper never invokes the target
    and still prints its report; it then returns the scaled duration if
    [return_time] is set and otherwise fails with [UnboundLocalError], the
    local [ret] never having been assigned. *)
Theorem timing_without_runs `{PyRuntime} (opts : timing_options)
    (func : pyfunction) (a : args) (time_run : Z) (calls : list args)
    (w : world) :
  activate opts = true ->
  times opts <= 0 ->
  decor_timing module_globals opts func a (Machine time_run calls w) =
  ((if return_time opts then
      Returns (VFloat (PrimFloat.mul (PrimFloat.sub (w_time w) (w_time w))
                         (factor opts)))
    else Raises (Exn UnboundLocalError
                   "local variable 'ret' referenced before assignment" [])),
   Machine (time_run + splits opts) calls
     (World (w_time w) (w_files w)
        (w_stdout w
           ++ timing_report opts (fn_name func) time_run
                (PrimFloat.mul (PrimFloat.sub (w_time w) (w_time w))
                   (factor opts)))
        (w_stderr w) (w_globals w))).
Proof.
  intros Hact Htimes. unfold decor_timing. rewrite Hact.
  rewrite timing_wrap_func_returns.
  - replace (Z.to_nat (times opts)) with 0%nat by lia. reflexivity.
  - intros i Hi. lia.
Qed.

Lemma timing_without_runs_witness :
  @decor_timing sample_runtime module_globals
    (TimingOptions true false 1000%float false false 0) test_yay no_args
    (Machine 0 [] empty_world) =
  (Raises (Exn UnboundLocalError
             "local variable 'ret' referenced before assignment" []),
   Machine 0 []
     (World 0%float ∅
        ["Runtime of x0 test                             0.00000 ms"]
        [] ∅)).
Proof.
  apply (@timing_without_runs sample_runtime
           (TimingOptions true false 1000%float false false 0) test_yay
           no_args 0 [] empty_world eq_refl).
  simpl. lia.
Defined.

(** ** reduce_query: the default path, and the cache with its imports *)

(** X10.  With the default [file_path] ([None]) and [always_query] unset,
    every call fails in [os.path.getmtime] with a [TypeError], which the
    handler for [FileNotFoundError] does not catch: the target is not
    invoked and nothing changes. *)
Theorem reduce_query_without_path `{PyRuntime} (G : gmap string value)
    (func : pyfunction) (a : args) (m : machine query_cache) :
  G !! "os" = Some (VModule "os") ->
  reduce_query_wrapper G None false func a m =
  (Raises (Exn TypeError
             "stat: path should be string, bytes, os.PathLike or integer, not NoneType"
             []), m).
Proof.
  intros Hos.
  assert (Hload : load_module_attr G "os" "os" "path" m = (Returns tt, m)).
  { unfold load_module_attr, bind, load_global. now rewrite Hos. }
  unfold reduce_query_wrapper.
  unfold bind at 1, try_except, bind at 1, getmtime.
  unfold bind at 1. rewrite Hload. reflexivity.
Qed.

Lemma reduce_query_without_path_witness :
  @reduce_query_wrapper sample_runtime module_globals None false query_sth
    no_args (Machine (QueryCache VNone None) [] empty_world) =
  (Raises (Exn TypeError
             "stat: path should be string, bytes, os.PathLike or integer, not NoneType"
             []),
   Machine (QueryCache VNone None) [] empty_world).
Proof.
  apply (@reduce_query_without_path sample_runtime module_globals query_sth
           no_args (Machine (QueryCache VNone None) [] empty_world)).
  reflexivity.
Defined.

(** X11.  In a namespace that binds [datetime] and [pd] to their libraries
    (which the file itself does not do), a call with [always_query] unset
    invokes the target once if neither the cached date nor the file's
    modification date is today's, and not at all otherwise. *)
Theorem reduce_query_queries_only_when_stale `{PyRuntime} (p : string)
    (func : pyfunction) (a : args) (c : query_cache) (calls : list args)
    (w : world) :
  invocations (Machine c calls w)
    (snd (reduce_query_wrapper with_imports (Some p) false func a
            (Machine c calls w))) =
  if bool_decide (df_date c = Some (today w))
     || bool_decide (file_day p w = Some (today w))
  then 0 else 1.
Proof.
  unfold invocations. rewrite reduce_query_invokes_iff_stale.
  destruct (bool_decide (df_date c = Some (today w))
            || bool_decide (file_day p w = Some (today w)));
    cbn [m_calls length]; lia.
Qed.

(** X12.  In the same namespace, when both tiers are stale and the target
    returns something that is no data frame, the call fails with
    [AttributeError] on [to_csv]: the value is already stored in [df], but
    [df_date] and the file are left as they were, so the next call queries
    the target again. *)
Theorem reduce_query_result_not_a_frame `{PyRuntime} (p : string)
    (func : pyfunction) (a : args) (c : query_cache) (calls : list args)
    (w w1 : world) (v : value) :
  df_date c <> Some (today w) ->
  file_day p w <> Some (today w) ->
  fn_body func a w = (Returns v, w1) ->
  (forall rows, v <> VFrame rows) ->
  reduce_query_wrapper with_imports (Some p) false func a
    (Machine c calls w) =
  (Raises (Exn AttributeError
             ("'" +:+ type_name v +:+ "' object has no attribute 'to_csv'")
             []),
   Machine (QueryCache v (df_date c)) (a :: calls) w1).
Proof.
  intros Hmem Hfile Hbody Hv. rewrite reduce_query_wrapper_tests.
  cbn [m_cell m_world].
  rewrite (bool_decide_eq_false_2 _ Hmem), (bool_decide_eq_false_2 _ Hfile).
  unfold bind at 1, bind at 1. rewrite call_eq. cbn [m_world].
  rewrite Hbody. cbn [fst snd].
  destruct v; try reflexivity.
  now destruct (Hv d).
Qed.

Lemma reduce_query_result_not_a_frame_witness :
  @reduce_query_wrapper sample_runtime with_imports (Some "cache.csv") false
    do_sth_run no_args (Machine (QueryCache VNone None) [] empty_world) =
  (Raises (Exn AttributeError
             "'NoneType' object has no attribute 'to_csv'" []),
   Machine (QueryCache VNone None) [no_args]
     (snd (fn_body do_sth_run no_args empty_world))).
Proof.
  apply (@reduce_query_result_not_a_frame sample_runtime "cache.csv"
           do_sth_run no_args (QueryCache VNone None) [] empty_world
           (snd (fn_body do_sth_run no_args empty_world)) VNone).
  - discriminate.
  - discriminate.
  - reflexivity.
  - intros rows; discriminate.
Defined.

(** X13.  In the same namespace, when the file was modified today and the
    cached date is not today's, the call reads the file instead of
    querying: it returns what [pd.read_csv] gives, keeps it in [df] with
    the file's date, and neither invokes the target nor touches the
    world. *)
Theorem reduce_query_adopts_fresh_file `{PyRuntime} (p : string)
    (func : pyfunction) (a : args) (c : query_cache) (calls : list args)
    (w : world) (f : file) (d : value) :
  df_date c <> Some (today w) ->
  w_files w !! p = Some f ->
  local_date (f_mtime f) = today w ->
  csv_load (f_text f) = Returns d ->
  reduce_query_wrapper with_imports (Some p) false func a
    (Machine c calls w) =
  (Returns d, Machine (QueryCache d (Some (today w))) calls w).
Proof.
  intros Hmem Hf Hday Hload.
  apply (reduce_query_file_fresh p func a c calls w f d); try assumption.
  unfold file_day. now rewrite Hf, Hday.
Qed.

Lemma reduce_query_adopts_fresh_file_witness :
  @reduce_query_wrapper sample_runtime with_imports (Some "cache.csv") false
    query_sth no_args
    (Machine (QueryCache VNone None) []
       (World 0%float {["cache.csv" := File "id" 0%float]} [] [] ∅)) =
  (Returns (VFrame [["id"]]),
   Machine (QueryCache (VFrame [["id"]]) (Some 0)) []
     (World 0%float {["cache.csv" := File "id" 0%float]} [] [] ∅)).
Proof.
  apply (@reduce_query_adopts_fresh_file sample_runtime "cache.csv"
           query_sth no_args (QueryCache VNone None) []
           (World 0%float {["cache.csv" := File "id" 0%float]} [] [] ∅)
           (File "id" 0%float) (VFrame [["id"]])).
  - discriminate.
  - reflexivity.
  - reflexivity.
  - reflexivity.
Defined.

(** ** deprecated and wip_warning *)

(** X14.  [deprecated] in its default mode ([print_only] false) makes the
    function unusable: every call raises [DeprecationWarning] carrying
    [str(text)] and the target is never invoked.  With [print_only] the
    wrapper prints one line naming the function and then is the plain call
    of the target. *)
Theorem deprecated_wrapper_modes (text : option string) (func : pyfunction)
    (a : args) (m : machine unit) :
  (forall G, deprecated_wrapper G text false func a m =
             (Raises (Exn DeprecationWarning (str_of_text text) []), m))
  /\ deprecated_wrapper module_globals text true func a m =
     call func a
       (Machine (m_cell m) (m_calls m)
          (write_stdout
             ("DeprecationWarning: " +:+ _repr_func func +:+ ": "
                +:+ str_of_text text)
             (m_world m))).
Proof.
  split.
  - intros G. reflexivity.
  - unfold deprecated_wrapper.
    unfold bind at 1, bind at 1. rewrite load_function_repr_func.
    reflexivity.
Qed.

(** X15.  [DeprecationWarning] and [WorkInProcessWarning] are both
    [Exception]s, so [pass_except] laid over [deprecated] or over
    [wip_warning] in raising mode swallows the warning: every call returns
    [None], the world is untouched, and the target never runs. *)
Theorem pass_except_silences_warnings (G : gmap string value)
    (text : option string) (wip_text filename : string) (line : Z)
    (func : pyfunction) (a : args) (m : machine unit) :
  pass_except_wrapper false
    (as_function func filename line (deprecated_wrapper G text false func))
    a m =
  (Returns VNone, Machine tt (a :: m_calls m) (m_world m))
  /\ pass_except_wrapper false
       (as_function func filename line
          (wip_warning_wrapper G wip_text false func))
       a m =
     (Returns VNone, Machine tt (a :: m_calls m) (m_world m)).
Proof.
  destruct m as [[] calls w]. split; reflexivity.
Qed.

(** ** repeat *)

Section RepeatFacts.
Variable func : pyfunction.
Variable a : args.

(** Once bound, the loop variable of the repetition stays bound. *)
Lemma repeat_call_keeps_bound {S} (k : nat) :
  forall (m m' : machine S) (r : value),
  repeat_call func a k (Some r) m <> (Returns None, m').
Proof.
  induction k as [|k IH]; intros m m' r.
  - discriminate.
  - simpl. unfold bind. rewrite call_eq.
    destruct (fst (fn_body func a (m_world m))); [apply IH|discriminate].
Qed.

(** The loop of [repeat] against the loop of [timing]: the same runs, the
    local [result] being bound from the start. *)
Lemma repeat_loop_repeat_call (k : nat) :
  forall (m : machine unit) (result : value),
  repeat_loop func a k result m =
  match repeat_call func a k (Some result) m with
  | (Returns (Some v), m') => (Returns v, m')
  | (Returns None, m') => (Returns result, m')
  | (Raises e, m') => (Raises e, m')
  end.
Proof.
  induction k as [|k IH]; intros m result; [reflexivity|].
  simpl. unfold bind. rewrite call_eq.
  destruct (fst (fn_body func a (m_world m))) as [v|e]; [|reflexivity].
  rewrite IH.
  destruct (repeat_call func a k (Some v) _) as [[[v'|]|e'] m'] eqn:E;
    try reflexivity.
  now apply repeat_call_keeps_bound in E.
Qed.
End RepeatFacts.

(** X16.  [repeat n] checks its bound when the decorator is built: [n < 1]
    fails the assertion there.  For [n >= 1], a call whose [n] runs all
    return invokes the target exactly [n] times and returns the value of
    the last run only. *)
Theorem repeat_returns_last (n : Z) (func : pyfunction) (a : args)
    (m : machine unit) (v : value) :
  (n < 1 -> repeat_check n = Raises (Exn AssertionError "" []))
  /\
  (1 <= n ->
   (forall i, (i < Z.to_nat n)%nat ->
      exists u, outcome_at func a i (m_world m) = Returns u) ->
   outcome_at func a (Z.to_nat n - 1) (m_world m) = Returns v ->
   repeat_check n = Returns tt
   /\ repeat_wrapper n func a m =
      (Returns v,
       push_calls a (Z.to_nat n) m
         (world_after func a (Z.to_nat n) (m_world m)))).
Proof.
  split.
  - intros Hn. unfold repeat_check.
    destruct (Z.leb_spec 1 n); [lia|reflexivity].
  - intros Hn Hok Hlast. split.
    + unfold repeat_check. destruct (Z.leb_spec 1 n); [reflexivity|lia].
    + unfold repeat_wrapper. rewrite repeat_loop_repeat_call.
      rewrite repeat_call_returns by exact Hok.
      destruct (Z.to_nat n) as [|k] eqn:Hk; [lia|].
      cbn [last_ret]. replace (Datatypes.S k - 1)%nat with k in Hlast by lia.
      now rewrite Hlast.
Qed.

(** X16 with two runs of a target that prints and returns [None]. *)
Lemma repeat_returns_last_witness :
  repeat_check 2 = Returns tt
  /\ repeat_wrapper 2 do_sth_run no_args (Machine tt [] empty_world) =
     (Returns VNone,
      push_calls no_args 2 (Machine tt [] empty_world)
        (world_after do_sth_run no_args 2 empty_world)).
Proof.
  apply (proj2 (repeat_returns_last 2 do_sth_run no_args
                  (Machine tt [] empty_world) VNone)).
  - lia.
  - intros i Hi. exists VNone. reflexivity.
  - reflexivity.
Defined.

(** X17.  [repeat] stops at the first run that raises: the exception goes
    to the caller after those [j + 1] invocations and the remaining runs
    do not take place. *)
Theorem repeat_stops_at_first_raise (n : Z) (func : pyfunction) (a : args)
    (m : machine unit) (j : nat) (e : exn) :
  Z.of_nat j < n ->
  (forall i, (i < j)%nat ->
     exists u, outcome_at func a i (m_world m) = Returns u) ->
  outcome_at func a j (m_world m) = Raises e ->
  repeat_wrapper n func a m =
  (Raises e,
   push_calls a (Datatypes.S j) m
     (world_after func a (Datatypes.S j) (m_world m))).
Proof.
  intros Hj Hok Hraise.
  unfold repeat_wrapper. rewrite repeat_loop_repeat_call.
  rewrite (repeat_call_raises func a j (Z.to_nat n) m (Some VNone) e);
    [reflexivity|lia|exact Hok|exact Hraise].
Qed.

Lemma repeat_stops_at_first_raise_witness :
  repeat_wrapper 3 do_sth_assert no_args (Machine tt [] empty_world) =
  (Raises (Exn AssertionError "" ["File <stdin>, line 2"]),
   push_calls no_args 1 (Machine tt [] empty_world)
     (world_after do_sth_assert no_args 1 empty_world)).
Proof.
  apply (repeat_stops_at_first_raise 3 do_sth_assert no_args
           (Machine tt [] empty_world) 0
           (Exn AssertionError "" ["File <stdin>, line 2"])).
  - lia.
  - intros i Hi; lia.
  - reflexivity.
Defined.

(** ** slow_down *)

(** X18.  [slow_down] sleeps only after a run that returned.  When the
    target raises, the exception goes out without any sleep; when it
    returns, the wrapper sleeps and then returns the target's value; and
    when the sleep itself raises (a negative delay), that error replaces
    the value of a target that has already run. *)
Theorem slow_down_order (sleep : world -> outcome unit * world)
    (func : pyfunction) (a : args) (m : machine unit) :
  (forall e w1, fn_body func a (m_world m) = (Raises e, w1) ->
     slow_down_wrapper sleep func a m =
     (Raises e, Machine tt (a :: m_calls m) w1))
  /\ (forall v w1, fn_body func a (m_world m) = (Returns v, w1) ->
        slow_down_wrapper sleep func a m =
        (match fst (sleep w1) with
         | Returns _ => Returns v
         | Raises e => Raises e
         end,
         Machine tt (a :: m_calls m) (snd (sleep w1)))).
Proof.
  destruct m as [[] calls w]. cbn [m_world m_calls].
  split.
  - intros e w1 Hbody.
    unfold slow_down_wrapper, bind, call. cbn [m_world m_cell m_calls].
    now rewrite Hbody.
  - intros v w1 Hbody.
    unfold slow_down_wrapper, bind, call, do_sleep.
    cbn [m_world m_cell m_calls]. rewrite Hbody.
    cbn [m_world m_cell m_calls].
    now destruct (sleep w1) as [[[]|e] w2].
Qed.

(** X18 with a negative delay, which [sleep] refuses. *)
Lemma slow_down_order_witness :
  slow_down_wrapper
    (fun w => (Raises (Exn ValueError "sleep length must be non-negative"
                         []), w))
    do_sth_run no_args (Machine tt [] empty_world) =
  (Raises (Exn ValueError "sleep length must be non-negative" []),
   Machine tt [no_args] (write_stdout "run" empty_world)).
Proof.
  apply (proj2 (slow_down_order
                  (fun w => (Raises (Exn ValueError
                                       "sleep length must be non-negative"
                                       []), w))
                  do_sth_run no_args (Machine tt [] empty_world))
           VNone (write_stdout "run" empty_world)).
  reflexivity.
Defined.

(** ** override_args *)

Lemma override_loop_take_drop (overrides positional : list value) (k : nat) :
  (k <= length positional)%nat -> (k <= length overrides)%nat ->
  fold_left
    (fun acc i =>
       match overrides !! i with
       | Some o => <[i := o]> acc
       | None => acc
       end)
    (seq 0 k) positional =
  take k overrides ++ drop k positional.
Proof.
  induction k as [|k IH]; intros Hp Ho.
  - reflexivity.
  - rewrite seq_S, fold_left_app, IH by lia. cbn [fold_left Nat.add].
    destruct (lookup_lt_is_Some_2 overrides k ltac:(lia)) as [o Ho'].
    destruct (lookup_lt_is_Some_2 positional k ltac:(lia)) as [x Hx].
    rewrite Ho'.
    rewrite (take_S_r overrides k o Ho').
    rewrite insert_app_r_alt by (rewrite length_take; lia).
    rewrite length_take, Nat.min_l by lia.
    rewrite Nat.sub_diag.
    rewrite (drop_S positional x k Hx). cbn.
    now rewrite <- app_assoc.
Qed.

Lemma override_positional_take_drop (overrides positional : list value) :
  override_positional overrides positional =
  take (length positional) overrides ++ drop (length overrides) positional.
Proof.
  unfold override_positional.
  rewrite override_loop_take_drop by lia.
  destruct (Nat.le_ge_cases (length positional) (length overrides)) as [H|H].
  - rewrite Nat.min_l by exact H.
    now rewrite !(drop_ge positional) by lia.
  - rewrite Nat.min_r by exact H.
    now rewrite !(take_ge overrides) by lia.
Qed.

Lemma override_positional_length (overrides positional : list value) :
  length (override_positional overrides positional) = length positional.
Proof.
  rewrite override_positional_take_drop.
  rewrite length_app, length_take, length_drop. lia.
Qed.

(** X19.  [override_args] hands the target as many positional arguments as
    the caller passed: the leading ones are replaced by the overrides, the
    caller's arguments beyond the overrides are kept, and overrides beyond
    the caller's arguments are dropped.  Overriding an overridden list
    again changes nothing. *)
Theorem override_args_positional (overrides : list value)
    (override_kwargs : list (string * value)) (f : pyfunction) (a : args)
    (m : machine unit) :
  m_calls (snd (override_args_inner overrides override_kwargs f a m)) =
    Args (take (length (a_pos a)) overrides
            ++ drop (length overrides) (a_pos a))
      (dict_update (a_kw a) override_kwargs) :: m_calls m
  /\ length (override_positional overrides (a_pos a)) = length (a_pos a)
  /\ (forall i, (i < length overrides)%nat -> (i < length (a_pos a))%nat ->
        override_positional overrides (a_pos a) !! i = overrides !! i)
  /\ (forall i, (length overrides <= i)%nat ->
        override_positional overrides (a_pos a) !! i = a_pos a !! i)
  /\ override_positional overrides
       (override_positional overrides (a_pos a)) =
     override_positional overrides (a_pos a).
Proof.
  split; [|split; [|split; [|split]]].
  - unfold override_args_inner. rewrite call_eq. cbn [snd m_calls].
    now rewrite override_positional_take_drop.
  - apply override_positional_length.
  - intros i Ho Hp. rewrite override_positional_take_drop.
    rewrite lookup_app_l by (rewrite length_take; lia).
    now rewrite lookup_take_lt by lia.
  - intros i Hi. rewrite override_positional_take_drop.
    destruct (Nat.le_ge_cases (length (a_pos a)) (length overrides)).
    + rewrite drop_ge, app_nil_r by lia.
      rewrite lookup_take_ge by lia.
      symmetry. apply lookup_ge_None_2. lia.
    + rewrite take_ge by lia.
      rewrite lookup_app_r by lia.
      rewrite lookup_drop. f_equal. lia.
  - rewrite (override_positional_take_drop overrides
               (override_positional overrides (a_pos a))).
    rewrite override_positional_length.
    rewrite (override_positional_take_drop overrides (a_pos a)).
    f_equal.
    destruct (Nat.le_ge_cases (length (a_pos a)) (length overrides)).
    + rewrite !drop_ge; [reflexivity|lia|].
      rewrite length_app, length_take, length_drop. lia.
    + rewrite take_ge by lia. now rewrite drop_app_length.
Qed.

Section DictFacts.
Implicit Types d o : list (string * value).

Lemma dict_get_set (q k : string) (v : value) d :
  dict_get q (dict_set k v d) =
  if String.eqb k q then Some v else dict_get q d.
Proof.
  induction d as [|[k1 v1] d IH]; [reflexivity|].
  cbn [dict_set dict_get].
  destruct (String.eqb_spec k1 k) as [->|Hne]; cbn [dict_get].
  - now destruct (String.eqb k q).
  - rewrite IH. destruct (String.eqb_spec k1 q) as [->|Hq]; [|reflexivity].
    destruct (String.eqb_spec k q) as [->|]; [contradiction|reflexivity].
Qed.

Lemma dict_get_None_keys (k : string) d :
  dict_get k d = None <-> ~ In k (map fst d).
Proof.
  induction d as [|[k1 v1] d IH]; cbn [dict_get map fst In]; [tauto|].
  destruct (String.eqb_spec k1 k) as [->|Hne].
  - split; [discriminate|tauto].
  - rewrite IH. tauto.
Qed.

Lemma dict_set_keys (k : string) (v : value) d :
  map fst (dict_set k v d) =
  match dict_get k d with
  | Some _ => map fst d
  | None => map fst d ++ [k]
  end.
Proof.
  induction d as [|[k1 v1] d IH]; [reflexivity|].
  cbn [dict_set dict_get].
  destruct (String.eqb k1 k); [reflexivity|].
  cbn [map fst]. rewrite IH. now destruct (dict_get k d).
Qed.

Lemma dict_update_get (q : string) o :
  forall d, NoDup (map fst o) ->
  dict_get q (dict_update d o) =
  match dict_get q o with
  | Some v => Some v
  | None => dict_get q d
  end.
Proof.
  induction o as [|[k v] o IH]; intros d Hnd; [reflexivity|].
  cbn [map fst] in Hnd. apply NoDup_cons in Hnd as [Hk Hnd].
  unfold dict_update in *. cbn [fold_left fst snd dict_get].
  rewrite IH by exact Hnd. rewrite dict_get_set.
  destruct (String.eqb_spec k q) as [->|Hne]; [|reflexivity].
  assert (Hnone : dict_get q o = None).
  { apply dict_get_None_keys. now rewrite <- list_elem_of_In. }
  now rewrite Hnone.
Qed.

Lemma dict_update_keys o :
  forall d, NoDup (map fst d) ->
  NoDup (map fst (dict_update d o))
  /\ exists extra, map fst (dict_update d o) = map fst d ++ extra.
Proof.
  induction o as [|[k v] o IH]; intros d Hnd.
  - split; [exact Hnd|]. exists []. now rewrite app_nil_r.
  - unfold dict_update in *. cbn [fold_left fst snd].
    assert (Hset : NoDup (map fst (dict_set k v d))).
    { rewrite dict_set_keys. destruct (dict_get k d) eqn:Hg; [exact Hnd|].
      apply NoDup_app. split; [exact Hnd|]. split.
      - intros x Hx Hx'. apply list_elem_of_In in Hx.
        apply list_elem_of_In in Hx'. cbn in Hx'. destruct Hx' as [<-|[]].
        now apply dict_get_None_keys in Hg.
      - apply NoDup_singleton. }
    destruct (IH _ Hset) as [Hnd' [extra He]].
    split; [exact Hnd'|].
    rewrite He, dict_set_keys.
    destruct (dict_get k d).
    + now exists extra.
    + exists (k :: extra). now rewrite <- app_assoc.
Qed.
End DictFacts.

(** X20.  The keyword arguments that [override_args] hands the target,
    both dictionaries having each key once: a key of the overrides has the
    override's value, any other key has the caller's value; the caller's
    keys keep their order, new keys follow them, and no key occurs
    twice. *)
Theorem override_args_keywords (overrides : list value)
    (override_kwargs : list (string * value)) (f : pyfunction) (a : args)
    (m : machine unit) :
  NoDup (map fst override_kwargs) ->
  NoDup (map fst (a_kw a)) ->
  exists passed,
    m_calls (snd (override_args_inner overrides override_kwargs f a m)) =
      passed :: m_calls m
    /\ (forall k, dict_get k (a_kw passed) =
                  match dict_get k override_kwargs with
                  | Some v => Some v
                  | None => dict_get k (a_kw a)
                  end)
    /\ NoDup (map fst (a_kw passed))
    /\ exists extra, map fst (a_kw passed) = map fst (a_kw a) ++ extra.
Proof.
  intros Ho Ha.
  exists (Args (override_positional overrides (a_pos a))
            (dict_update (a_kw a) override_kwargs)).
  split.
  - unfold override_args_inner. now rewrite call_eq.
  - cbn [a_kw]. split.
    + intros k. now apply dict_update_get.
    + now apply dict_update_keys.
Qed.

(** X19 and X20 on the commented example of the module,
    [override('Cat', 'male', k1='0')], called with one positional argument
    and the keywords [k0] and [k1]. *)
Lemma override_args_keywords_witness :
  exists passed,
    m_calls (snd (override_args_inner [VStr "Cat"; VStr "male"]
                    [("k1", VStr "0")] do_sth_run
                    (Args [VStr "Dog"] [("k0", VInt 7); ("k1", VInt 1)])
                    (Machine tt [] empty_world))) = [passed]
    /\ (forall k, dict_get k (a_kw passed) =
                  match dict_get k [("k1", VStr "0")] with
                  | Some v => Some v
                  | None => dict_get k [("k0", VInt 7); ("k1", VInt 1)]
                  end)
    /\ NoDup (map fst (a_kw passed))
    /\ exists extra, map fst (a_kw passed) = ["k0"; "k1"] ++ extra.
Proof.
  apply (override_args_keywords [VStr "Cat"; VStr "male"]
           [("k1", VStr "0")] do_sth_run
           (Args [VStr "Dog"] [("k0", VInt 7); ("k1", VInt 1)])
           (Machine tt [] empty_world)).
  - apply (bool_decide_unpack _). reflexivity.
  - apply (bool_decide_unpack _). reflexivity.
Defined.

Example override_args_example :
  m_calls (snd (override_args_inner [VStr "Cat"; VStr "male"]
                  [("k1", VStr "0")] do_sth_run
                  (Args [VStr "Dog"] [("k0", VInt 7); ("k1", VInt 1)])
                  (Machine tt [] empty_world))) =
  [Args [VStr "Cat"] [("k0", VInt 7); ("k1", VStr "0")]].
Proof. reflexivity. Qed.

(** ** force_input_arg *)

Lemma force_check_all_present (names : list string)
    (kw : list (string * value)) (m : machine unit) :
  Forall (fun k => is_Some (dict_get k kw)) names ->
  force_check names kw m = (Returns tt, m).
Proof.
  induction 1 as [|k names [v Hk] _ IH]; [reflexivity|].
  cbn [force_check]. now rewrite Hk.
Qed.

Lemma force_check_first_missing (pre post : list string) (k : string)
    (kw : list (string * value)) (m : machine unit) :
  Forall (fun k' => is_Some (dict_get k' kw)) pre ->
  dict_get k kw = None ->
  force_check (pre ++ k :: post) kw m =
  (Raises (Exn TypeError ("Keyword argument `" +:+ k +:+ "` must be passed")
             []), m).
Proof.
  intros Hpre Hk. induction Hpre as [|k' pre [v Hk'] _ IH].
  - cbn [app force_check]. now rewrite Hk.
  - cbn [app force_check]. now rewrite Hk'.
Qed.

(** X21.  The wrapper of [force_input_arg] looks for each forced name
    among the keyword arguments of the call, in order.  If all are there
    it is the plain call of the target; otherwise it raises [TypeError]
    naming the first forced name that is missing, without invoking the
    target, even if a value for that parameter was passed by position. *)
Theorem force_input_arg_checks_keywords (names : list string)
    (func : pyfunction) (a : args) (m : machine unit) :
  (Forall (fun k => is_Some (dict_get k (a_kw a))) names ->
   force_input_arg_wrapper names func a m = call func a m)
  /\
  (forall pre k post,
     names = pre ++ k :: post ->
     Forall (fun k' => is_Some (dict_get k' (a_kw a))) pre ->
     dict_get k (a_kw a) = None ->
     force_input_arg_wrapper names func a m =
     (Raises (Exn TypeError
                ("Keyword argument `" +:+ k +:+ "` must be passed") []),
      m)).
Proof.
  split.
  - intros Hall. unfold force_input_arg_wrapper, bind.
    now rewrite force_check_all_present.
  - intros pre k post -> Hpre Hk.
    unfold force_input_arg_wrapper, bind.
    now rewrite force_check_first_missing.
Qed.

(** X21 on the docstring's [test_func]: the forced [a] given by position
    only is refused. *)
Lemma force_input_arg_checks_keywords_witness :
  force_input_arg_wrapper ["a"] do_sth_run (Args [VInt 10] [])
    (Machine tt [] empty_world) =
  (Raises (Exn TypeError "Keyword argument `a` must be passed" []),
   Machine tt [] empty_world).
Proof.
  apply (proj2 (force_input_arg_checks_keywords ["a"] do_sth_run
                  (Args [VInt 10] []) (Machine tt [] empty_world))
           [] "a" []).
  - reflexivity.
  - constructor.
  - reflexivity.
Defined.

(** ** accepts and returns *)

Lemma load_function_info (m : machine unit) :
  load_function module_globals "info" m = (Returns tt, m).
Proof. reflexivity. Qed.

Lemma load_sys_unbound (m : machine unit) :
  load_module_attr module_globals "sys" "sys" "stderr" m =
  (Raises (Exn NameError "name 'sys' is not defined" []), m).
Proof. reflexivity. Qed.

(** X22.  [accepts] lets a call through unchecked when [debug] is 0, and
    lets it through when the classes of the positional arguments are
    exactly the declared ones: in both cases the wrapper is the plain call
    of the target with those arguments. *)
Theorem accepts_pass_through (G : gmap string value) (debug : value)
    (f : pyfunction) (types : list string) (a : args) (m : machine unit) :
  a_kw a = [] ->
  py_eq_int debug 0 = true \/ map type_of (a_pos a) = types ->
  accepts_newf G debug f types a m = call f (Args (a_pos a) []) m.
Proof.
  intros Hkw Hcase. unfold accepts_newf, unexpected_keyword.
  rewrite Hkw. cbv beta iota delta [bind ret].
  destruct (py_eq_int debug 0); [reflexivity|].
  destruct Hcase as [Hd|Hty]; [discriminate|].
  rewrite bool_decide_eq_true_2 by (rewrite <- Hty; now rewrite length_map).
  now rewrite (bool_decide_eq_true_2 _ Hty).
Qed.

Lemma accepts_pass_through_witness :
  accepts_newf module_globals (VInt 1) do_sth_run ["str"]
    (Args [VStr "a"] []) (Machine tt [] empty_world) =
  call do_sth_run (Args [VStr "a"] []) (Machine tt [] empty_world).
Proof.
  apply (accepts_pass_through module_globals (VInt 1) do_sth_run ["str"]
           (Args [VStr "a"] []) (Machine tt [] empty_world)).
  - reflexivity.
  - right. reflexivity.
Defined.

(** X23.  When the number of arguments is right and their classes are not
    the declared ones, [accepts] never reaches the target at debug levels
    1 and 2.  At level 2 it raises [TypeError] with the message of [info].
    At level 1, the default, the warning it means to print names
    [sys.stderr], and the module does not import [sys]: the call ends in
    [NameError]. *)
Theorem accepts_blocks_mismatch (f : pyfunction) (types : list string)
    (a : args) (m : machine unit) :
  a_kw a = [] ->
  length (a_pos a) = length types ->
  map type_of (a_pos a) <> types ->
  accepts_newf module_globals (VInt 2) f types a m =
    (Raises (Exn TypeError
               (info (fn_name f) types (map type_of (a_pos a)) false) []),
     m)
  /\ accepts_newf module_globals (VInt 1) f types a m =
     (Raises (Exn NameError "name 'sys' is not defined" []), m).
Proof.
  intros Hkw Hlen Hty.
  split; unfold accepts_newf, unexpected_keyword; rewrite Hkw;
    cbv beta iota delta [bind ret py_eq_int Z.eqb];
    rewrite (bool_decide_eq_true_2 _ Hlen), (bool_decide_eq_false_2 _ Hty);
    rewrite load_function_info; unfold report_mismatch;
    cbv beta iota delta [py_eq_int Z.eqb Pos.eqb].
  - reflexivity.
  - cbv beta iota delta [bind]. now rewrite load_sys_unbound.
Qed.

(** X23 on the docstring's [test(1)] for [accepts(str)]. *)
Lemma accepts_blocks_mismatch_witness :
  accepts_newf module_globals (VInt 2)
    (PyFunction "test" "<stdin>" 2 (fun _ w => (Returns VNone, w))) ["str"]
    (Args [VInt 1] []) (Machine tt [] empty_world) =
    (Raises (Exn TypeError
               "'test' method accepts (str), but was given (int)" []),
     Machine tt [] empty_world)
  /\ accepts_newf module_globals (VInt 1)
       (PyFunction "test" "<stdin>" 2 (fun _ w => (Returns VNone, w)))
       ["str"] (Args [VInt 1] []) (Machine tt [] empty_world) =
     (Raises (Exn NameError "name 'sys' is not defined" []),
      Machine tt [] empty_world).
Proof.
  apply (accepts_blocks_mismatch
           (PyFunction "test" "<stdin>" 2 (fun _ w => (Returns VNone, w)))
           ["str"] (Args [VInt 1] []) (Machine tt [] empty_world)).
  - reflexivity.
  - reflexivity.
  - discriminate.
Defined.

(** X24.  Unless [debug] is 0, [accepts] asserts that the call has as many
    positional arguments as there are declared classes, before it looks at
    any class: a call of another arity fails with [AssertionError] and the
    target is not invoked, whatever the debug level. *)
Theorem accepts_checks_arity (G : gmap string value) (debug : value)
    (f : pyfunction) (types : list string) (a : args) (m : machine unit) :
  a_kw a = [] ->
  py_eq_int debug 0 = false ->
  length (a_pos a) <> length types ->
  accepts_newf G debug f types a m =
  (Raises (Exn AssertionError "" []), m).
Proof.
  intros Hkw Hd Hlen. unfold accepts_newf, unexpected_keyword.
  rewrite Hkw. cbv beta iota delta [bind ret]. rewrite Hd.
  now rewrite (bool_decide_eq_false_2 _ Hlen).
Qed.

Lemma accepts_checks_arity_witness :
  accepts_newf module_globals (VInt 3) do_sth_run ["str"]
    (Args [] []) (Machine tt [] empty_world) =
  (Raises (Exn AssertionError "" []), Machine tt [] empty_world).
Proof.
  apply (accepts_checks_arity module_globals (VInt 3) do_sth_run ["str"]
           (Args [] []) (Machine tt [] empty_world)).
  - reflexivity.
  - reflexivity.
  - discriminate.
Defined.

(** X25.  [returns] checks after the fact: the target is always invoked
    first.  When it returns a value of the declared class, or [debug] is
    0, the wrapper returns that value.  When the class differs, the
    target's effects stay and the value is lost: level 2 raises
    [TypeError] with the message of [info], level 1 (the default) ends in
    [NameError] on the unimported [sys]. *)
Theorem returns_checks_after_call (f : pyfunction) (ret_type : string)
    (a : args) (m : machine unit) (result : value) (w1 : world) :
  a_kw a = [] ->
  fn_body f (Args (a_pos a) []) (m_world m) = (Returns result, w1) ->
  (forall G debug,
     py_eq_int debug 0 = true \/ type_of result = ret_type ->
     returns_newf G debug f ret_type a m =
     (Returns result, Machine tt (Args (a_pos a) [] :: m_calls m) w1))
  /\
  (type_of result <> ret_type ->
   returns_newf module_globals (VInt 2) f ret_type a m =
     (Raises (Exn TypeError
                (info (fn_name f) [ret_type] [type_of result] true) []),
      Machine tt (Args (a_pos a) [] :: m_calls m) w1)
   /\ returns_newf module_globals (VInt 1) f ret_type a m =
      (Raises (Exn NameError "name 'sys' is not defined" []),
       Machine tt (Args (a_pos a) [] :: m_calls m) w1)).
Proof.
  intros Hkw Hbody. destruct m as [[] calls w]. cbn [m_world m_calls] in *.
  assert (Hcall : call f (Args (a_pos a) []) (Machine tt calls w) =
                  (Returns result,
                   Machine tt (Args (a_pos a) [] :: calls) w1)).
  { rewrite call_eq. cbn [m_world m_cell m_calls]. now rewrite Hbody. }
  split.
  - intros G debug Hcase. unfold returns_newf, unexpected_keyword.
    rewrite Hkw. cbv beta iota delta [bind ret]. rewrite Hcall.
    destruct (py_eq_int debug 0); [reflexivity|].
    destruct Hcase as [Hd|Hty]; [discriminate|].
    now rewrite (bool_decide_eq_true_2 _ Hty).
  - intros Hty.
    split; unfold returns_newf, unexpected_keyword; rewrite Hkw;
      cbv beta iota delta [bind ret py_eq_int Z.eqb]; rewrite Hcall;
      cbv beta iota; rewrite (bool_decide_eq_false_2 _ Hty);
      rewrite load_function_info; unfold report_mismatch;
      cbv beta iota delta [py_eq_int Z.eqb Pos.eqb].
    + reflexivity.
    + cbv beta iota delta [bind]. now rewrite load_sys_unbound.
Qed.

(** X25 for [returns(str)] over a target that prints and returns
    [None]. *)
Lemma returns_checks_after_call_witness :
  returns_newf module_globals (VInt 2) do_sth_run "str" (Args [] [])
    (Machine tt [] empty_world) =
    (Raises (Exn TypeError
               "'do_sth' method returns (str), but result is (NoneType)"
               []),
     Machine tt [Args [] []] (write_stdout "run" empty_world))
  /\ returns_newf module_globals (VInt 1) do_sth_run "str" (Args [] [])
       (Machine tt [] empty_world) =
     (Raises (Exn NameError "name 'sys' is not defined" []),
      Machine tt [Args [] []] (write_stdout "run" empty_world)).
Proof.
  apply (proj2 (returns_checks_after_call do_sth_run "str" (Args [] [])
                  (Machine tt [] empty_world) VNone
                  (write_stdout "run" empty_world) eq_refl eq_refl)).
  discriminate.
Defined.

(** X26.  A keyword other than [debug] given to the decorator factories
    fails when the decorator is built, in two different ways: [accepts]
    raises [KeyError] for the missing key ['debug'], whereas in [returns]
    the lookup sits inside a [try] whose handler [except KeyError(key)]
    names the unbound [key], so what comes out is a [NameError]. *)
Theorem debug_keyword_missing (kw : list (string * value))
    (m : machine unit) :
  kw <> [] ->
  dict_get "debug" kw = None ->
  accepts_debug kw = Raises (Exn KeyError "'debug'" [])
  /\ returns_debug module_globals kw m =
     (Raises (Exn NameError "name 'key' is not defined" []), m).
Proof.
  intros Hne Hnone. unfold accepts_debug, returns_debug.
  destruct kw as [|kv kw]; [contradiction|].
  rewrite Hnone. split; reflexivity.
Qed.

Lemma debug_keyword_missing_witness :
  accepts_debug [("level", VInt 2)] = Raises (Exn KeyError "'debug'" [])
  /\ returns_debug module_globals [("level", VInt 2)]
       (Machine tt [] empty_world) =
     (Raises (Exn NameError "name 'key' is not defined" []),
      Machine tt [] empty_world).
Proof.
  apply (debug_keyword_missing [("level", VInt 2)]
           (Machine tt [] empty_world)).
  - discriminate.
  - reflexivity.
Defined.
